(** * The node deployment schema of the MetaKube Terraform provider

    A shallow embedding of
    [metakube/resource_metakube_node_deployment_schema.go]: the two
    label/tag predicates, the duration validator and the schema tables
    built by the four schema assembly functions, followed by the
    properties the specification states about them.

    Go strings are byte strings, so they are [string] (a list of
    [ascii] bytes); Go's [int] values are only compared here, never
    computed with, so they are [Z]; a [map[string]T] is a
    [gmap string T]; a [nil] func, slice or error is [None] or [[]]. *)

From Stdlib Require Import ZArith Ascii String DecimalString.
From stdpp Require Import base option list gmap strings.

Set Warnings "-register-all,-clear-no-such-hyp".
Set Default Proof Using "Type".

Local Open Scope Z_scope.

(** ** Go runtime and standard library, as far as the file uses them *)

(** A Go call either returns or panics (a failed type assertion
    [v.(T)] is the only panic in this file). *)
Inductive outcome (A : Type) : Type :=
| Returns (a : A)
| Panics (msg : string).
Arguments Returns {A} a.
Arguments Panics {A} msg.

#[global] Instance outcome_ret : MRet outcome := fun A a => Returns a.

#[global] Instance outcome_bind : MBind outcome := fun A B k m =>
  match m with
  | Returns a => k a
  | Panics msg => Panics msg
  end.

(** Go's [a && b]: [b] is evaluated only when [a] is [true]. *)
Definition andAlso (a b : outcome bool) : outcome bool :=
  x ← a; if x : bool then b else Returns false.

Infix "&&&" := andAlso (at level 40, left associativity).

(** The dynamic values an [interface{}] holds in this file. *)
Inductive Value : Type :=
| VNil
| VBool (b : bool)
| VInt (n : Z)
| VString (s : string)
| VList (l : list Value)
| VMap (m : gmap string Value).

(** [v.(int)] and [v.(map[string]interface{})] in their one-result
    form, which panics on any other dynamic type. *)
Definition assertInt (v : Value) : outcome Z :=
  match v with
  | VInt n => Returns n
  | _ => Panics "interface conversion: interface {} is not int"
  end.

Definition assertMap (v : Value) : outcome (gmap string Value) :=
  match v with
  | VMap m => Returns m
  | _ => Panics "interface conversion: interface {} is not map[string]interface {}"
  end.

(** An [error] value is what its [Error()] method returns; [nil] is
    [None] at type [option error]. *)
Record error : Type := Errorf { Error : string }.

Module strings.

(** Package [strings], on byte strings. [CutPrefix] also hands back
    what follows the prefix. *)
Fixpoint CutPrefix (s prefix : string) {struct prefix} : option string :=
  match prefix with
  | EmptyString => Some s
  | String p prefix' =>
      match s with
      | EmptyString => None
      | String c s' => if Ascii.eqb c p then CutPrefix s' prefix' else None
      end
  end.

Definition HasPrefix (s prefix : string) : bool :=
  match CutPrefix s prefix with
  | Some _ => true
  | None => false
  end.

Fixpoint Contains (s substr : string) : bool :=
  HasPrefix s substr ||
  match s with
  | EmptyString => false
  | String _ s' => Contains s' substr
  end.

(** [strings.Join]. *)
Fixpoint Join (elems : list string) (sep : string) : string :=
  match elems with
  | [] => ""
  | [e] => e
  | e :: rest => e +:+ sep +:+ Join rest sep
  end.

(** [strings.ToLower] on ASCII letters (bytes outside A-Z are kept). *)
Definition lowerByte (c : ascii) : ascii :=
  let n := nat_of_ascii c in
  if ((65 <=? n) && (n <=? 90))%nat then ascii_of_nat (n + 32) else c.

Fixpoint ToLower (s : string) : string :=
  match s with
  | EmptyString => EmptyString
  | String c s' => String (lowerByte c) (ToLower s')
  end.

End strings.

(** The [%d] rendering of an [int]. *)
Definition formatInt (n : Z) : string := NilZero.string_of_int (Z.to_int n).

(** The [%v] rendering of a [[]string]: [[a b c]]. *)
Definition formatStrings (l : list string) : string :=
  "[" +:+ strings.Join l " " +:+ "]".

Module regexp.

(** Package [regexp].

    The syntax tree [regexp.MustCompile] builds for the constructs the
    file's one pattern uses, and a backtracking matcher for it.
    [matchHere r start s] lists every way [r] can match at the head of
    [s]: what is left of [s], and whether the match is still at the
    start of the text ([start] says whether it began there). *)
Inductive Regexp : Type :=
| OpLiteral (lit : string)
| OpCharClass (cs : list ascii)
| OpBeginText
| OpCapture (r : Regexp)
| OpConcat (r1 r2 : Regexp)
| OpAlternate (r1 r2 : Regexp).

Definition isEmptyString (s : string) : bool :=
  match s with
  | EmptyString => true
  | _ => false
  end.

Fixpoint matchHere (r : Regexp) (start : bool) (s : string) : list (bool * string) :=
  match r with
  | OpLiteral lit =>
      match strings.CutPrefix s lit with
      | Some rest => [(start && isEmptyString lit, rest)]
      | None => []
      end
  | OpCharClass cs =>
      match s with
      | String c rest => if existsb (Ascii.eqb c) cs then [(false, rest)] else []
      | EmptyString => []
      end
  | OpBeginText => if start then [(start, s)] else []
  | OpCapture r' => matchHere r' start s
  | OpConcat r1 r2 =>
      '(start', rest) ← matchHere r1 start s; matchHere r2 start' rest
  | OpAlternate r1 r2 => matchHere r1 start s ++ matchHere r2 start s
  end.

(** The [MatchString] method of a compiled pattern: an unanchored
    search, a match may begin at any offset of the text. *)
Fixpoint searchFrom (r : Regexp) (start : bool) (s : string) : bool :=
  match matchHere r start s with
  | _ :: _ => true
  | [] =>
      match s with
      | EmptyString => false
      | String _ s' => searchFrom r false s'
      end
  end.

Definition MatchString (r : Regexp) (s : string) : bool :=
  searchFrom r true s.

End regexp.

(** ** The plugin SDK's types, as far as the file uses them *)

Module cty.

(** An attribute path; the file only passes it through. *)
Inductive PathStep : Type :=
| GetAttrStep (name : string)
| IndexStep (key : Value).

Definition Path : Type := list PathStep.

End cty.

Module diag.

Inductive Severity : Type :=
| Error
| Warning.

Record Diagnostic : Type := mkDiagnostic {
  Severity_ : Severity;
  Summary : string;
  Detail : string;
  AttributePath : cty.Path;
}.

(** [diag.Diagnostics] is a slice of diagnostics; [nil] is [[]]. *)
Definition Diagnostics : Type := list Diagnostic.

End diag.

Module schema.

Inductive ValueType : Type :=
| TypeInvalid
| TypeBool
| TypeInt
| TypeFloat
| TypeString
| TypeList
| TypeMap
| TypeSet.

(** [*schema.ResourceData], seen through the one method the file
    calls: [GetOkConfigured key] returns the value at [key] and
    whether the configuration sets it. *)
Record ResourceData : Type := mkResourceData {
  GetOkConfigured : string -> Value * bool;
}.

Definition SchemaDiffSuppressFunc : Type :=
  string -> string -> string -> ResourceData -> outcome bool.

Definition SchemaValidateFunc : Type :=
  Value -> string -> outcome (list string * list error).

Definition SchemaValidateDiagFunc : Type :=
  Value -> cty.Path -> diag.Diagnostics.

(** What [Elem] points to: nothing, the schema of the elements, or a
    [&schema.Resource{Schema: ...}] with the fields of a nested block. *)
Inductive ElemOf (S : Type) : Type :=
| ElemNil
| ElemSchema (s : S)
| ElemResource (fields : gmap string S).
Arguments ElemNil {S}.
Arguments ElemSchema {S} s.
Arguments ElemResource {S} fields.

(** [schema.Schema], with the fields this file sets. *)
Inductive Schema : Type := mkSchema {
  Type_ : ValueType;
  Optional : bool;
  Required : bool;
  Computed : bool;
  ForceNew : bool;
  Default : option Value;
  Description : string;
  MinItems : Z;
  MaxItems : Z;
  ConflictsWith : list string;
  RequiredWith : list string;
  ExactlyOneOf : list string;
  Elem : ElemOf Schema;
  DiffSuppressFunc : option SchemaDiffSuppressFunc;
  ValidateFunc : option SchemaValidateFunc;
  ValidateDiagFunc : option SchemaValidateDiagFunc;
}.

(** A struct literal names the fields it sets; every other field
    keeps its zero value. *)
Inductive FieldInit : Type :=
| Type' (t : ValueType)
| Optional' (b : bool)
| Required' (b : bool)
| Computed' (b : bool)
| ForceNew' (b : bool)
| Default' (v : Value)
| Description' (s : string)
| MinItems' (n : Z)
| MaxItems' (n : Z)
| ConflictsWith' (keys : list string)
| RequiredWith' (keys : list string)
| ExactlyOneOf' (keys : list string)
| Elem' (e : ElemOf Schema)
| DiffSuppressFunc' (f : SchemaDiffSuppressFunc)
| ValidateFunc' (f : SchemaValidateFunc)
| ValidateDiagFunc' (f : SchemaValidateDiagFunc).

Definition zero : Schema :=
  mkSchema TypeInvalid false false false false None "" 0 0 [] [] [] ElemNil None None None.

Definition init (s : Schema) (f : FieldInit) : Schema :=
  let 'mkSchema ty op rq cp fn df ds mn mx cw rw eo el dsf vf vdf := s in
  match f with
  | Type' x => mkSchema x op rq cp fn df ds mn mx cw rw eo el dsf vf vdf
  | Optional' x => mkSchema ty x rq cp fn df ds mn mx cw rw eo el dsf vf vdf
  | Required' x => mkSchema ty op x cp fn df ds mn mx cw rw eo el dsf vf vdf
  | Computed' x => mkSchema ty op rq x fn df ds mn mx cw rw eo el dsf vf vdf
  | ForceNew' x => mkSchema ty op rq cp x df ds mn mx cw rw eo el dsf vf vdf
  | Default' x => mkSchema ty op rq cp fn (Some x) ds mn mx cw rw eo el dsf vf vdf
  | Description' x => mkSchema ty op rq cp fn df x mn mx cw rw eo el dsf vf vdf
  | MinItems' x => mkSchema ty op rq cp fn df ds x mx cw rw eo el dsf vf vdf
  | MaxItems' x => mkSchema ty op rq cp fn df ds mn x cw rw eo el dsf vf vdf
  | ConflictsWith' x => mkSchema ty op rq cp fn df ds mn mx x rw eo el dsf vf vdf
  | RequiredWith' x => mkSchema ty op rq cp fn df ds mn mx cw x eo el dsf vf vdf
  | ExactlyOneOf' x => mkSchema ty op rq cp fn df ds mn mx cw rw x el dsf vf vdf
  | Elem' x => mkSchema ty op rq cp fn df ds mn mx cw rw eo x dsf vf vdf
  | DiffSuppressFunc' x => mkSchema ty op rq cp fn df ds mn mx cw rw eo el (Some x) vf vdf
  | ValidateFunc' x => mkSchema ty op rq cp fn df ds mn mx cw rw eo el dsf (Some x) vdf
  | ValidateDiagFunc' x => mkSchema ty op rq cp fn df ds mn mx cw rw eo el dsf vf (Some x)
  end.

(** [lit [f1; ...; fn]] is the literal [schema.Schema{f1, ..., fn}]. *)
Definition lit (fields : list FieldInit) : Schema := foldl init zero fields.

(** The fields of the nested block a schema describes, if it has one. *)
Definition blockFields (s : Schema) : option (gmap string Schema) :=
  match Elem s with
  | ElemResource fields => Some fields
  | _ => None
  end.

(** The schema reached from [fields] by the attribute names [path],
    each name but the last entering the nested block of its field. *)
Fixpoint fieldAt (path : list string) (fields : gmap string Schema) : option Schema :=
  match path with
  | [] => None
  | [name] => fields !! name
  | name :: rest => s ← fields !! name; nested ← blockFields s; fieldAt rest nested
  end.

(** The fields of the nested block reached by [path]. *)
Definition blockAt (path : list string) (fields : gmap string Schema) : option (gmap string Schema) :=
  match path with
  | [] => Some fields
  | _ => s ← fieldAt path fields; blockFields s
  end.

End schema.

(** Package [validation] of the SDK: the two validator builders the
    file calls. With [ignoreCase] the comparison folds ASCII letters;
    the file only ever passes [false]. *)
Module validation.

Definition StringInSlice (valid : list string) (ignoreCase : bool) : schema.SchemaValidateFunc :=
  fun i k =>
    match i with
    | VString v =>
        if existsb (fun str => String.eqb v str ||
                      (ignoreCase && String.eqb (strings.ToLower v) (strings.ToLower str))) valid
        then Returns ([], [])
        else Returns ([], [Errorf ("expected " +:+ k +:+ " to be one of " +:+
                                   formatStrings valid +:+ ", got " +:+ v)])
    | _ => Returns ([], [Errorf ("expected type of " +:+ k +:+ " to be string")])
    end.

Definition IntAtLeast (min : Z) : schema.SchemaValidateFunc :=
  fun i k =>
    match i with
    | VInt v =>
        if v <? min
        then Returns ([], [Errorf ("expected " +:+ k +:+ " to be at least (" +:+
                                   formatInt min +:+ "), got " +:+ formatInt v)])
        else Returns ([], [])
    | _ => Returns ([], [Errorf ("expected type of " +:+ k +:+ " to be integer")])
    end.

End validation.

(** ** The host framework's reading of the declared constraints

    The framework that walks the schema is not part of the file. *)
Module host.

(** Modelled from the spec: the host framework, which is not in this
    repository, evaluates the declared constraints against the
    configuration. A configuration is seen through which attribute
    addresses it sets; [ConflictsWith] rejects a set field when one
    of the listed addresses is set too. *)
Definition conflictsWith (k : string) (s : schema.Schema) (configured : string -> bool) : list error :=
  if configured k then
    match List.filter configured (schema.ConflictsWith s) with
    | key :: _ => [Errorf (k +:+ ": conflicts with " +:+ key)]
    | [] => []
    end
  else [].

(** Modelled from the spec: the host framework is not in this
    repository; [RequiredWith] rejects a set field when one of the
    listed addresses is not set. *)
Definition requiredWith (k : string) (s : schema.Schema) (configured : string -> bool) : list error :=
  if configured k && negb (forallb configured (schema.RequiredWith s))
  then [Errorf (k +:+ ": all of " +:+ formatStrings (schema.RequiredWith s) +:+ " must be specified")]
  else [].

(** Modelled from the spec: the host framework is not in this
    repository; a field that declares [ExactlyOneOf] is rejected
    unless exactly one of the listed addresses (the field's own
    included) is set: choose exactly one of. *)
Definition exactlyOneOf (k : string) (s : schema.Schema) (configured : string -> bool) : list error :=
  match schema.ExactlyOneOf s with
  | [] => []
  | keys =>
      let allKeys := remove_dups (keys ++ [k]) in
      match List.filter configured allKeys with
      | [_] => []
      | [] => [Errorf (k +:+ ": one of " +:+ formatStrings allKeys +:+ " must be specified")]
      | _ => [Errorf (k +:+ ": only one of " +:+ formatStrings allKeys +:+ " can be specified")]
      end
  end.

(** Modelled from the spec: the host framework is not in this
    repository; the constraint errors of the fields of one block,
    whose attributes live at the addresses [prefix ++ name]. *)
Definition validateConstraints (pfx : string) (fields : gmap string schema.Schema)
    (configured : string -> bool) : list error :=
  mjoin ((fun '(name, s) =>
            let k := pfx +:+ name in
            exactlyOneOf k s configured ++ requiredWith k s configured ++
            conflictsWith k s configured) <$> map_to_list fields).

End host.

(** ** The file's functions *)

Definition matakubeResourceNodeDeploymentLabelOrTagReserved (path : string) : bool :=
  (fix range (substrs : list string) : bool :=
     match substrs with
     | [] => false
     | substr :: rest =>
         if strings.Contains path substr then true else range rest
     end)
    [ "metakube-cluster";
      "system-project";
      "system-cluster";
      "system/cluster";
      "system/project";
      "kubernetes.io";
      "syseleven.de" ].

(** The pattern [^(syseleven\.de|metakube|system|kubernetes\.io)([/\-])]
    as [regexp.MustCompile] parses it. *)
Definition forbiddenPrefixPattern : regexp.Regexp :=
  regexp.OpConcat regexp.OpBeginText
    (regexp.OpConcat
       (regexp.OpCapture
          (regexp.OpAlternate (regexp.OpLiteral "syseleven.de")
             (regexp.OpAlternate (regexp.OpLiteral "metakube")
                (regexp.OpAlternate (regexp.OpLiteral "system")
                   (regexp.OpLiteral "kubernetes.io")))))
       (regexp.OpCapture (regexp.OpCharClass ["/"%char; "-"%char]))).

Definition matakubeResourceNodeDeploymentValidateLabelOrTag (key : string) : option error :=
  let r := forbiddenPrefixPattern in
  if regexp.MatchString r key
  then Some (Errorf ("forbidden tag or label prefix " +:+ key))
  else None.

(** The [ValidateFunc] closure the labels field and the three tags
    fields each repeat: the errors of the map's keys, appended in the
    order the map is ranged over. *)
Definition validateLabelsOrTags : schema.SchemaValidateFunc :=
  fun v k =>
    l ← assertMap v;
    mret ([], foldl (fun errors key =>
                       match matakubeResourceNodeDeploymentValidateLabelOrTag key with
                       | Some err => errors ++ [err]
                       | None => errors
                       end) [] (map_to_list l).*1).

Section NodeDeployment.

(** [time.ParseDuration] is the Go library's; the file only looks at
    whether it returns an error, and at the error's text. *)
Variable time_ParseDuration : string -> Z * option error.

Definition isNonEmptyDurationString (v : Value) (p : cty.Path) : diag.Diagnostics :=
  match v with
  | VString vv =>
      let '(_, err) := time_ParseDuration vv in
      match err with
      | Some e =>
          [ {| diag.Severity_ := diag.Error;
               diag.Summary := "could not parse '" +:+ vv +:+ "': " +:+ Error e;
               diag.Detail := "";
               diag.AttributePath := p |} ]
      | None => []
      end
  | _ =>
      [ {| diag.Severity_ := diag.Error;
           diag.Summary := "Should be a duration string";
           diag.Detail := "";
           diag.AttributePath := p |} ]
  end.

Definition matakubeResourceNodeDeploymentAWSSchema : gmap string schema.Schema :=
  list_to_map [
    ("instance_type", schema.lit [
       schema.Type' schema.TypeString;
       schema.Required' true;
       schema.Description' "EC2 instance type" ]);
    ("disk_size", schema.lit [
       schema.Type' schema.TypeInt;
       schema.Required' true;
       schema.Description' "Size of the volume in GBs. Only one volume will be created" ]);
    ("volume_type", schema.lit [
       schema.Type' schema.TypeString;
       schema.Required' true;
       schema.Description' "EBS volume type" ]);
    ("availability_zone", schema.lit [
       schema.Type' schema.TypeString;
       schema.Required' true;
       schema.Description' "Availability zone in which to place the node. It is coupled with the subnet to which the node will belong" ]);
    ("subnet_id", schema.lit [
       schema.Type' schema.TypeString;
       schema.Required' true;
       schema.Description' "The VPC subnet to which the node shall be connected" ]);
    ("assign_public_ip", schema.lit [
       schema.Type' schema.TypeBool;
       schema.Optional' true;
       schema.Default' (VBool true);
       schema.Description' ("Flag which controls a property of the AWS instance. When set the AWS instance will get a public IP address " +:+
         "assigned during launch overriding a possible setting in the used AWS subnet.") ]);
    ("ami", schema.lit [
       schema.Type' schema.TypeString;
       schema.Optional' true;
       schema.Description' "Amazon Machine Image to use. Will be defaulted to an AMI of your selected operating system and region" ]);
    ("tags", schema.lit [
       schema.Type' schema.TypeMap;
       schema.Optional' true;
       schema.Computed' true;
       schema.Description' "Additional instance tags";
       schema.Elem' (schema.ElemSchema (schema.lit [ schema.Type' schema.TypeString ]));
       schema.DiffSuppressFunc' (fun k old new d =>
         Returns (matakubeResourceNodeDeploymentLabelOrTagReserved k));
       schema.ValidateFunc' validateLabelsOrTags ])
  ].

Definition matakubeResourceNodeDeploymentCloudOpenstackSchema : gmap string schema.Schema :=
  list_to_map [
    ("flavor", schema.lit [
       schema.Type' schema.TypeString;
       schema.Required' true;
       schema.Description' "Instance type" ]);
    ("image", schema.lit [
       schema.Type' schema.TypeString;
       schema.Required' true;
       schema.Description' "Image to use" ]);
    ("disk_size", schema.lit [
       schema.Type' schema.TypeInt;
       schema.Optional' true;
       schema.ValidateFunc' (validation.IntAtLeast 1);
       schema.Description' "If set, the rootDisk will be a volume. If not, the rootDisk will be on ephemeral storage and its size will be derived from the flavor" ]);
    ("tags", schema.lit [
       schema.Type' schema.TypeMap;
       schema.Optional' true;
       schema.Computed' true;
       schema.Description' "Additional instance tags";
       schema.Elem' (schema.ElemSchema (schema.lit [ schema.Type' schema.TypeString ]));
       schema.DiffSuppressFunc' (fun k old new d =>
         Returns (matakubeResourceNodeDeploymentLabelOrTagReserved k));
       schema.ValidateFunc' validateLabelsOrTags ]);
    ("use_floating_ip", schema.lit [
       schema.Type' schema.TypeBool;
       schema.Optional' true;
       schema.Default' (VBool true);
       schema.Description' "Indicate use of floating ip in case of floating_ip_pool presense" ]);
    ("instance_ready_check_period", schema.lit [
       schema.Type' schema.TypeString;
       schema.Optional' true;
       schema.Default' (VString "5s");
       schema.Description' "Specifies how often should the controller check if instance is ready before timing out";
       schema.ValidateDiagFunc' isNonEmptyDurationString ]);
    ("instance_ready_check_timeout", schema.lit [
       schema.Type' schema.TypeString;
       schema.Optional' true;
       schema.Default' (VString "120s");
       schema.Description' "Specifies how long should the controller check if instance is ready before timing out";
       schema.ValidateDiagFunc' isNonEmptyDurationString ])
  ].

Definition metakubeResourceNodeDeploymentAzureSchema : schema.Schema :=
  schema.lit [
    schema.Type' schema.TypeList;
    schema.Optional' true;
    schema.MaxItems' 1;
    schema.Description' "Azure node deployment specification";
    schema.Elem' (schema.ElemResource (list_to_map [
      ("image_id", schema.lit [
         schema.Type' schema.TypeString;
         schema.Optional' true;
         schema.Description' "Node image id" ]);
      ("size", schema.lit [
         schema.Type' schema.TypeString;
         schema.Required' true;
         schema.Description' "VM size" ]);
      ("assign_public_ip", schema.lit [
         schema.Type' schema.TypeBool;
         schema.Optional' true;
         schema.Default' (VBool false);
         schema.Description' "whether to have public facing IP or not" ]);
      ("disk_size_gb", schema.lit [
         schema.Type' schema.TypeInt;
         schema.Optional' true;
         schema.Default' (VInt 0);
         schema.ForceNew' true;
         schema.Description' "Data disk size in GB" ]);
      ("os_disk_size_gb", schema.lit [
         schema.Type' schema.TypeInt;
         schema.Optional' true;
         schema.Default' (VInt 0);
         schema.ForceNew' true;
         schema.Description' "OS disk size in GB" ]);
      ("tags", schema.lit [
         schema.Type' schema.TypeMap;
         schema.Optional' true;
         schema.Computed' true;
         schema.Description' "Additional metadata to set";
         schema.Elem' (schema.ElemSchema (schema.lit [ schema.Type' schema.TypeString ]));
         schema.DiffSuppressFunc' (fun k old new d =>
           Returns (matakubeResourceNodeDeploymentLabelOrTagReserved k));
         schema.ValidateFunc' validateLabelsOrTags ]);
      ("zones", schema.lit [
         schema.Type' schema.TypeList;
         schema.Optional' true;
         schema.Computed' true;
         schema.Description' "Represents the availablity zones for azure vms";
         schema.Elem' (schema.ElemSchema (schema.lit [ schema.Type' schema.TypeString ])) ])
    ])) ].

Definition matakubeResourceNodeDeploymentSpecFields : gmap string schema.Schema :=
  list_to_map [
    ("dynamic_config", schema.lit [
       schema.Type' schema.TypeBool;
       schema.Optional' true;
       schema.Default' (VBool false);
       schema.Description' "Enable metakube kubelete dynamic config" ]);
    ("replicas", schema.lit [
       schema.Type' schema.TypeInt;
       schema.Optional' true;
       schema.Default' (VInt 3);
       schema.Description' "Number of replicas";
       schema.ConflictsWith' ["spec.0.min_replicas"; "spec.0.max_replicas"];
       schema.DiffSuppressFunc' (fun _ _ n d =>
         let '(minv, ok1) := schema.GetOkConfigured d "spec.0.min_replicas" in
         let '(maxv, ok2) := schema.GetOkConfigured d "spec.0.max_replicas" in
         Returns ok1 &&& (m ← assertInt minv; mret (m >? 0)) &&&
         Returns ok2 &&& (m ← assertInt maxv; mret (m >? 0))) ]);
    ("min_replicas", schema.lit [
       schema.Type' schema.TypeInt;
       schema.Optional' true;
       schema.ValidateFunc' (validation.IntAtLeast 1);
       schema.Description' "Minimum number of replicas to downscale";
       schema.RequiredWith' ["spec.0.max_replicas"] ]);
    ("max_replicas", schema.lit [
       schema.Type' schema.TypeInt;
       schema.Optional' true;
       schema.ValidateFunc' (validation.IntAtLeast 1);
       schema.Description' "Maximum number of replicas to scale up";
       schema.RequiredWith' ["spec.0.min_replicas"] ]);
    ("template", schema.lit [
       schema.Type' schema.TypeList;
       schema.MaxItems' 1;
       schema.Required' true;
       schema.Description' "Template specification";
       schema.Elem' (schema.ElemResource (list_to_map [
         ("cloud", schema.lit [
            schema.Type' schema.TypeList;
            schema.MaxItems' 1;
            schema.Required' true;
            schema.Description' "Cloud specification";
            schema.Elem' (schema.ElemResource (list_to_map [
              ("bringyourown", schema.lit [
                 schema.Optional' true;
                 schema.Type' schema.TypeMap;
                 schema.Description' "Bring your own infrastructure";
                 schema.Elem' (schema.ElemSchema (schema.lit [ schema.Type' schema.TypeString ])) ]);
              ("aws", schema.lit [
                 schema.Type' schema.TypeList;
                 schema.Optional' true;
                 schema.MaxItems' 1;
                 schema.Description' "AWS node deployment specification";
                 schema.Elem' (schema.ElemResource matakubeResourceNodeDeploymentAWSSchema) ]);
              ("openstack", schema.lit [
                 schema.Type' schema.TypeList;
                 schema.Optional' true;
                 schema.MaxItems' 1;
                 schema.Description' "OpenStack node deployment specification";
                 schema.Elem' (schema.ElemResource matakubeResourceNodeDeploymentCloudOpenstackSchema) ]);
              ("azure", metakubeResourceNodeDeploymentAzureSchema)
            ])) ]);
         ("operating_system", schema.lit [
            schema.Type' schema.TypeList;
            schema.Required' true;
            schema.MinItems' 1;
            schema.MaxItems' 1;
            schema.Description' "Operating system";
            schema.Elem' (schema.ElemResource (list_to_map [
              ("ubuntu", schema.lit [
                 schema.Type' schema.TypeList;
                 schema.Optional' true;
                 schema.MinItems' 1;
                 schema.MaxItems' 1;
                 schema.ExactlyOneOf' ["spec.0.template.0.operating_system.0.ubuntu"; "spec.0.template.0.operating_system.0.flatcar"];
                 schema.Description' "Ubuntu operating system";
                 schema.Elem' (schema.ElemResource (list_to_map [
                   ("dist_upgrade_on_boot", schema.lit [
                      schema.Type' schema.TypeBool;
                      schema.Optional' true;
                      schema.Default' (VBool false);
                      schema.Description' "Upgrade operating system on boot" ])
                 ])) ]);
              ("flatcar", schema.lit [
                 schema.Type' schema.TypeList;
                 schema.Optional' true;
                 schema.MinItems' 1;
                 schema.MaxItems' 1;
                 schema.ExactlyOneOf' ["spec.0.template.0.operating_system.0.ubuntu"; "spec.0.template.0.operating_system.0.flatcar"];
                 schema.Description' "Flatcar operating system";
                 schema.Elem' (schema.ElemResource (list_to_map [
                   ("disable_auto_update", schema.lit [
                      schema.Type' schema.TypeBool;
                      schema.Optional' true;
                      schema.Default' (VBool false);
                      schema.Description' "Disable flatcar auto update feature" ])
                 ])) ])
            ])) ]);
         ("versions", schema.lit [
            schema.Type' schema.TypeList;
            schema.Optional' true;
            schema.Computed' true;
            schema.MaxItems' 1;
            schema.Description' "Cloud components versions";
            schema.Elem' (schema.ElemResource (list_to_map [
              ("kubelet", schema.lit [
                 schema.Type' schema.TypeString;
                 schema.Optional' true;
                 schema.Computed' true;
                 schema.Description' "Kubelet version" ])
            ])) ]);
         ("labels", schema.lit [
            schema.Type' schema.TypeMap;
            schema.Optional' true;
            schema.Computed' true;
            schema.Description' ("Map of string keys and values that can be used to organize and categorize (scope and select) objects. " +:+
              "It will be applied to Nodes allowing users run their apps on specific Node using labelSelector.");
            schema.Elem' (schema.ElemSchema (schema.lit [ schema.Type' schema.TypeString ]));
            schema.DiffSuppressFunc' (fun k _ _ _ =>
              Returns (matakubeResourceNodeDeploymentLabelOrTagReserved k));
            schema.ValidateFunc' validateLabelsOrTags ]);
         ("taints", schema.lit [
            schema.Type' schema.TypeList;
            schema.Optional' true;
            schema.Description' "List of taints to set on new nodes";
            schema.Elem' (schema.ElemResource (list_to_map [
              ("effect", schema.lit [
                 schema.Type' schema.TypeString;
                 schema.Required' true;
                 schema.Description' "Taint effect";
                 schema.ValidateFunc' (validation.StringInSlice ["NoSchedule"; "PreferNoSchedule"; "NoExecute"] false) ]);
              ("key", schema.lit [
                 schema.Type' schema.TypeString;
                 schema.Required' true;
                 schema.Description' "Taint key" ]);
              ("value", schema.lit [
                 schema.Type' schema.TypeString;
                 schema.Required' true;
                 schema.Description' "Taint value" ])
            ])) ])
       ])) ])
  ].

(** ** Vocabulary of the properties *)

(** [v] is a string that [time.ParseDuration] parses without error. *)
Definition parsesAsDuration (v : Value) : Prop :=
  exists s, v = VString s /\ (time_ParseDuration s).2 = None.

(** The field at [path] has a diff-suppression function, and on every
    key it returns what the reserved-key predicate returns. *)
Definition suppressesReservedKeys (path : list string) : Prop :=
  exists f,
    schema.DiffSuppressFunc <$> schema.fieldAt path matakubeResourceNodeDeploymentSpecFields = Some (Some f) /\
    forall k old new d,
      f k old new d = Returns (matakubeResourceNodeDeploymentLabelOrTagReserved k).

End NodeDeployment.

(** [s] has [substr] as a contiguous part. *)
Definition hasSubstring (s substr : string) : Prop :=
  exists before after, s = before +:+ substr +:+ after.

(** [key] begins with one of the four reserved names followed by a
    slash or a dash. *)
Definition hasForbiddenPrefix (key : string) : Prop :=
  exists pfx sep rest,
    pfx ∈ ["syseleven.de"; "metakube"; "system"; "kubernetes.io"] /\
    sep ∈ ["/"%char; "-"%char] /\
    key = pfx +:+ String sep rest.

(** The configuration sets [key] to an integer above zero. *)
Definition configuredPositive (d : schema.ResourceData) (key : string) : Prop :=
  exists n, schema.GetOkConfigured d key = (VInt n, true) /\ 0 < n.

(** What the configuration sets at [key] is an [int], as the
    [TypeInt] of [min_replicas] and [max_replicas] makes it. *)
Definition configuredAsInt (d : schema.ResourceData) (key : string) : Prop :=
  forall v, schema.GetOkConfigured d key = (v, true) -> exists n, v = VInt n.

(** The field [name] of [fields] is optional and declares none of the
    three constraints between attributes. *)
Definition optionalUnconstrained (fields : gmap string schema.Schema) (name : string) : Prop :=
  exists s,
    fields !! name = Some s /\
    schema.Optional s = true /\ schema.Required s = false /\
    schema.ExactlyOneOf s = [] /\ schema.ConflictsWith s = [] /\
    schema.RequiredWith s = [].

(** One behaviour [time.ParseDuration] may be given where a closed
    instance of the schema is wanted: a parser that rejects every
    string. *)
Definition rejectingParser (s : string) : Z * option error :=
  (0, Some (Errorf ("time: invalid duration " +:+ s))).

(** A [ResourceData] whose configuration sets [spec.0.min_replicas] to
    [minv] and [spec.0.max_replicas] to [maxv], and nothing else. *)
Definition autoscalingData (minv maxv : Z) : schema.ResourceData :=
  schema.mkResourceData (fun key =>
    if String.eqb key "spec.0.min_replicas" then (VInt minv, true)
    else if String.eqb key "spec.0.max_replicas" then (VInt maxv, true)
    else (VNil, false)).

(** The configuration of the cloud block that sets both [aws] and
    [openstack]. *)
Definition awsAndOpenstack (key : string) : bool :=
  String.eqb key "spec.0.template.0.cloud.0.aws" ||
  String.eqb key "spec.0.template.0.cloud.0.openstack".

(** ** Vocabulary of the further properties *)

(** The message of the error the forbidden-prefix validator returns
    for [key]. *)
Definition forbiddenPrefixError (key : string) : error :=
  Errorf ("forbidden tag or label prefix " +:+ key).

(** The field at [path] of [fields] has the validation function [f]. *)
Definition validatesWith (fields : gmap string schema.Schema) (path : list string)
    (f : schema.SchemaValidateFunc) : Prop :=
  schema.ValidateFunc <$> schema.fieldAt path fields = Some (Some f).

(** The field at [path] of [fields] has the diff-suppression function [f]. *)
Definition suppressesWith (fields : gmap string schema.Schema) (path : list string)
    (f : schema.SchemaDiffSuppressFunc) : Prop :=
  schema.DiffSuppressFunc <$> schema.fieldAt path fields = Some (Some f).

(** Where the labels and the three tags maps are in the spec block. *)
Definition labelAndTagFields : list (list string) :=
  [ ["template"; "labels"];
    ["template"; "cloud"; "aws"; "tags"];
    ["template"; "cloud"; "openstack"; "tags"];
    ["template"; "cloud"; "azure"; "tags"] ].

(** Where the fields validated by [validation.IntAtLeast(1)] are. *)
Definition atLeastOneFields : list (list string) :=
  [ ["min_replicas"];
    ["max_replicas"];
    ["template"; "cloud"; "openstack"; "disk_size"] ].

(** [v] holds an [int]. *)
Definition isInt (v : Value) : Prop := exists n, v = VInt n.

(** Whether [P] holds of every field of a schema tree, each field
    given with the names that lead to it from the root; [false] when
    the tree is nested deeper than [fuel]. *)
Fixpoint checkTree (P : list string -> schema.Schema -> bool) (fuel : nat)
    (pfx : list string) (fields : gmap string schema.Schema) : bool :=
  match fuel with
  | O => false
  | S n =>
      forallb (fun '(name, s) =>
                 P (pfx ++ [name]) s &&
                 match schema.blockFields s with
                 | Some nested => checkTree P n (pfx ++ [name]) nested
                 | None => true
                 end) (map_to_list fields)
  end.

Definition isNone {A} (o : option A) : bool :=
  match o with
  | None => true
  | Some _ => false
  end.

(** The type a default value has to have to fit a field. *)
Definition typeOfValue (v : Value) : schema.ValueType :=
  match v with
  | VBool _ => schema.TypeBool
  | VInt _ => schema.TypeInt
  | VString _ => schema.TypeString
  | VList _ => schema.TypeList
  | VMap _ => schema.TypeMap
  | VNil => schema.TypeInvalid
  end.

Definition ValueType_eqb (a b : schema.ValueType) : bool :=
  match a, b with
  | schema.TypeInvalid, schema.TypeInvalid
  | schema.TypeBool, schema.TypeBool
  | schema.TypeInt, schema.TypeInt
  | schema.TypeFloat, schema.TypeFloat
  | schema.TypeString, schema.TypeString
  | schema.TypeList, schema.TypeList
  | schema.TypeMap, schema.TypeMap
  | schema.TypeSet, schema.TypeSet => true
  | _, _ => false
  end.

(** Equality of the scalar values defaults are made of. *)
Definition scalar_eqb (v w : Value) : bool :=
  match v, w with
  | VBool a, VBool b => Bool.eqb a b
  | VInt a, VInt b => a =? b
  | VString a, VString b => String.eqb a b
  | _, _ => false
  end.

(** The address of the field the names [path] lead to: every block
    on the way is entered at its element 0. *)
Definition address (path : list string) : string :=
  "spec.0." +:+ strings.Join path ".0.".

(** The keys a field names in its three constraints. *)
Definition constraintKeys (s : schema.Schema) : list string :=
  schema.ConflictsWith s ++ schema.RequiredWith s ++ schema.ExactlyOneOf s.

(** A field is required or optional and not both; a required field
    has no default; a computed field is optional and has no default. *)
Definition presenceOk (s : schema.Schema) : bool :=
  Bool.eqb (schema.Required s) (negb (schema.Optional s)) &&
  (negb (schema.Required s) || isNone (schema.Default s)) &&
  (negb (schema.Computed s) || (schema.Optional s && isNone (schema.Default s))).

(** A default has the type of its field; a list holds a block or
    strings, a map holds strings, any other field has no [Elem]; item
    bounds are on lists only, and are 0 or 1 with the lower one not
    above the upper one. *)
Definition shapeOk (s : schema.Schema) : bool :=
  match schema.Default s with
  | Some v => ValueType_eqb (typeOfValue v) (schema.Type_ s)
  | None => true
  end &&
  match schema.Type_ s, schema.Elem s with
  | schema.TypeList, schema.ElemResource _ => true
  | schema.TypeList, schema.ElemSchema e
  | schema.TypeMap, schema.ElemSchema e =>
      ValueType_eqb (schema.Type_ e) schema.TypeString
  | (schema.TypeBool | schema.TypeInt | schema.TypeString), schema.ElemNil =>
      (schema.MinItems s =? 0) && (schema.MaxItems s =? 0)
  | _, _ => false
  end &&
  (0 <=? schema.MinItems s) && (schema.MinItems s <=? schema.MaxItems s) &&
  (schema.MaxItems s <=? 1).

(** The defaults the schema tree declares, by the names that lead to
    the field. *)
Definition declaredDefaults : gmap (list string) Value :=
  list_to_map [
    (["dynamic_config"], VBool false);
    (["replicas"], VInt 3);
    (["template"; "cloud"; "aws"; "assign_public_ip"], VBool true);
    (["template"; "cloud"; "openstack"; "use_floating_ip"], VBool true);
    (["template"; "cloud"; "openstack"; "instance_ready_check_period"], VString "5s");
    (["template"; "cloud"; "openstack"; "instance_ready_check_timeout"], VString "120s");
    (["template"; "cloud"; "azure"; "assign_public_ip"], VBool false);
    (["template"; "cloud"; "azure"; "disk_size_gb"], VInt 0);
    (["template"; "cloud"; "azure"; "os_disk_size_gb"], VInt 0);
    (["template"; "operating_system"; "ubuntu"; "dist_upgrade_on_boot"], VBool false);
    (["template"; "operating_system"; "flatcar"; "disable_auto_update"], VBool false)
  ].

Definition defaultIs (expected : option Value) (s : schema.Schema) : bool :=
  match schema.Default s, expected with
  | Some v, Some w => scalar_eqb v w
  | None, None => true
  | _, _ => false
  end.

(** Where the fields with a diff-suppression function are. *)
Definition diffSuppressingFields : list (list string) :=
  ["replicas"] :: labelAndTagFields.

(** Where the fields with a [ValidateFunc] are. *)
Definition validatedFields : list (list string) :=
  atLeastOneFields ++ labelAndTagFields ++ [["template"; "taints"; "effect"]].

(** Where the fields with a [ValidateDiagFunc] are. *)
Definition durationFields : list (list string) :=
  [ ["template"; "cloud"; "openstack"; "instance_ready_check_period"];
    ["template"; "cloud"; "openstack"; "instance_ready_check_timeout"] ].

(** Where the fields whose change forces a new resource are. *)
Definition forceNewFields : list (list string) :=
  [ ["template"; "cloud"; "azure"; "disk_size_gb"];
    ["template"; "cloud"; "azure"; "os_disk_size_gb"] ].

(** Where the fields that declare a constraint between attributes are. *)
Definition constrainedFields : list (list string) :=
  [ ["replicas"]; ["min_replicas"]; ["max_replicas"];
    ["template"; "operating_system"; "ubuntu"];
    ["template"; "operating_system"; "flatcar"] ].

Definition hooksAre (path : list string) (s : schema.Schema) : bool :=
  Bool.eqb (negb (isNone (schema.DiffSuppressFunc s)))
           (bool_decide (path ∈ diffSuppressingFields)) &&
  Bool.eqb (negb (isNone (schema.ValidateFunc s)))
           (bool_decide (path ∈ validatedFields)) &&
  Bool.eqb (negb (isNone (schema.ValidateDiagFunc s)))
           (bool_decide (path ∈ durationFields)) &&
  Bool.eqb (schema.ForceNew s) (bool_decide (path ∈ forceNewFields)).

(** The fields of the block the field at [path] is in. *)
Definition siblings (fields : gmap string schema.Schema) (path : list string) :
    list (string * schema.Schema) :=
  match schema.blockAt (removelast path) fields with
  | Some block => map_to_list block
  | None => []
  end.

Definition constraintsOk (fields : gmap string schema.Schema)
    (path : list string) (s : schema.Schema) : bool :=
  Bool.eqb (negb (bool_decide (constraintKeys s = [])))
           (bool_decide (path ∈ constrainedFields)) &&
  forallb (fun key =>
             existsb (fun '(name, t) =>
                        String.eqb key (address (removelast path ++ [name])) &&
                        schema.Optional t && negb (schema.Required t))
                     (siblings fields path))
          (constraintKeys s).

Definition singleBlock (path : list string) (s : schema.Schema) : bool :=
  match schema.blockFields s with
  | Some _ => bool_decide (path = ["template"; "taints"]) || (schema.MaxItems s =? 1)
  | None => true
  end.

(** A [ResourceData] whose configuration sets both replica bounds to
    the same value [v]. *)
Definition boundsSetTo (v : Value) : schema.ResourceData :=
  schema.mkResourceData (fun key =>
    if String.eqb key "spec.0.min_replicas" || String.eqb key "spec.0.max_replicas"
    then (v, true) else (VNil, false)).

(** ** Properties *)

(** *** Byte strings *)

Lemma append_nil_l (s : string) : "" +:+ s = s.
Proof. reflexivity. Qed.

Lemma append_cons (c : ascii) (a b : string) : String c a +:+ b = String c (a +:+ b).
Proof. reflexivity. Qed.

Lemma append_nil_r (s : string) : s +:+ "" = s.
Proof. induction s as [|c s IH]; [reflexivity | by rewrite append_cons, IH]. Qed.

Lemma append_assoc (a b c : string) : (a +:+ b) +:+ c = a +:+ b +:+ c.
Proof. induction a as [|x a IH]; [reflexivity | by rewrite !append_cons, IH]. Qed.

Lemma CutPrefix_Some (s pfx rest : string) :
  strings.CutPrefix s pfx = Some rest <-> s = pfx +:+ rest.
Proof.
  revert s. induction pfx as [|p pfx IH]; intros s; simpl.
  - rewrite append_nil_l. split; congruence.
  - rewrite append_cons. destruct s as [|c s]; [split; discriminate|].
    destruct (Ascii.eqb_spec c p) as [->|Hne].
    + rewrite IH. split; congruence.
    + split; [discriminate | intros [= Hc _]; contradiction].
Qed.

Lemma HasPrefix_true (s pfx : string) :
  strings.HasPrefix s pfx = true <-> exists rest, s = pfx +:+ rest.
Proof.
  unfold strings.HasPrefix.
  destruct (strings.CutPrefix s pfx) as [rest|] eqn:Hcut.
  - apply CutPrefix_Some in Hcut. split; [eauto | reflexivity].
  - split; [discriminate | intros [rest Hrest]].
    apply CutPrefix_Some in Hrest. congruence.
Qed.

Lemma Contains_true (s substr : string) :
  strings.Contains s substr = true <->
  exists before after, s = before +:+ substr +:+ after.
Proof.
  induction s as [|c s IH]; cbn [strings.Contains];
    rewrite orb_true_iff, HasPrefix_true.
  - split.
    + intros [[rest Hrest]|?]; [|discriminate]. exists "", rest. exact Hrest.
    + intros (before & after & Heq). left.
      destruct before; [eauto | discriminate].
  - rewrite IH. split.
    + intros [[rest Hrest]|(before & after & ->)].
      * exists "", rest. exact Hrest.
      * exists (String c before), after. reflexivity.
    + intros (before & after & Heq). destruct before as [|b before].
      * left. eauto.
      * right. rewrite append_cons in Heq. injection Heq as _ ->. eauto.
Qed.

Lemma Contains_false (s substr : string) :
  strings.Contains s substr = false <->
  ~ exists before after, s = before +:+ substr +:+ after.
Proof. rewrite <- Contains_true. destruct (strings.Contains s substr); naive_solver. Qed.

Lemma Contains_suffix (pre s : string) : strings.Contains (pre +:+ s) s = true.
Proof. apply Contains_true. exists pre, "". by rewrite append_nil_r. Qed.

(** *** The reserved-key predicate *)

Ltac list_cases H :=
  repeat (apply elem_of_cons in H as [->|H]); try (apply elem_of_nil in H; contradiction).

Ltac list_member :=
  repeat first [apply list_elem_of_here | apply list_elem_of_further].

(** C2. For every key, [matakubeResourceNodeDeploymentLabelOrTagReserved]
    returns [true] exactly when the key contains one of the seven
    reserved substrings, and [false] exactly when it contains none. *)
Theorem reserved_iff_contains_reserved_substring (path : string) :
  (matakubeResourceNodeDeploymentLabelOrTagReserved path = true <->
   exists substr,
     substr ∈ [ "metakube-cluster"; "system-project"; "system-cluster";
                "system/cluster"; "system/project"; "kubernetes.io";
                "syseleven.de" ] /\
     hasSubstring path substr) /\
  (matakubeResourceNodeDeploymentLabelOrTagReserved path = false <->
   forall substr,
     substr ∈ [ "metakube-cluster"; "system-project"; "system-cluster";
                "system/cluster"; "system/project"; "kubernetes.io";
                "syseleven.de" ] ->
     ~ hasSubstring path substr).
Proof.
  unfold matakubeResourceNodeDeploymentLabelOrTagReserved, hasSubstring.
  simpl.
  repeat match goal with
  | |- context [strings.Contains path ?sub] =>
      let E := fresh "E" in
      destruct (strings.Contains path sub) eqn:E;
      [ apply Contains_true in E;
        split; split;
        [ intros _; exists sub; split; [list_member | exact E]
        | reflexivity
        | discriminate
        | intros H; exfalso; apply (H sub); [list_member | exact E] ]
      | apply Contains_false in E ]
  end.
  split; split.
  - discriminate.
  - intros (substr & Hin & Hsub). list_cases Hin; contradiction.
  - intros _ substr Hin Hsub. list_cases Hin; contradiction.
  - reflexivity.
Qed.

Example reserved_keys :
  matakubeResourceNodeDeploymentLabelOrTagReserved "kubernetes.io/role" = true /\
  matakubeResourceNodeDeploymentLabelOrTagReserved "my.system/cluster-name" = true /\
  matakubeResourceNodeDeploymentLabelOrTagReserved "team" = false /\
  matakubeResourceNodeDeploymentLabelOrTagReserved "Kubernetes.IO/role" = false /\
  matakubeResourceNodeDeploymentLabelOrTagReserved "" = false.
Proof. repeat split; reflexivity. Qed.

(** *** The forbidden-prefix validator *)

Section Matcher.

Implicit Types (r : regexp.Regexp) (s rest : string) (start : bool).

Lemma matchHere_literal lit start s start' rest :
  (start', rest) ∈ regexp.matchHere (regexp.OpLiteral lit) start s <->
  s = lit +:+ rest /\ start' = start && regexp.isEmptyString lit.
Proof.
  simpl. destruct (strings.CutPrefix s lit) as [rest0|] eqn:Hcut.
  - apply CutPrefix_Some in Hcut as ->. rewrite list_elem_of_singleton.
    split; [intros [= -> ->]; done | intros [Heq ->]].
    by apply (inj (String.append lit)) in Heq as ->.
  - rewrite elem_of_nil. split; [done | intros [Heq _]].
    apply CutPrefix_Some in Heq. congruence.
Qed.

Lemma matchHere_charclass cs start s start' rest :
  (start', rest) ∈ regexp.matchHere (regexp.OpCharClass cs) start s <->
  exists c, c ∈ cs /\ s = String c rest /\ start' = false.
Proof.
  simpl. destruct s as [|c s].
  - rewrite elem_of_nil. naive_solver.
  - destruct (existsb (Ascii.eqb c) cs) eqn:Hex.
    + apply existsb_exists in Hex as (x & Hin & ->%Ascii.eqb_eq).
      apply list_elem_of_In in Hin. rewrite list_elem_of_singleton. naive_solver.
    + rewrite elem_of_nil. split; [done | intros (x & Hin & [= -> ->] & _)].
      apply list_elem_of_In in Hin.
      assert (existsb (Ascii.eqb x) cs = true); [|congruence].
      apply existsb_exists. exists x. by rewrite Ascii.eqb_refl.
Qed.

Lemma matchHere_begin start s start' rest :
  (start', rest) ∈ regexp.matchHere regexp.OpBeginText start s <->
  start = true /\ start' = true /\ rest = s.
Proof.
  simpl. destruct start.
  - rewrite list_elem_of_singleton. naive_solver.
  - rewrite elem_of_nil. naive_solver.
Qed.

Lemma matchHere_concat r1 r2 start s start' rest :
  (start', rest) ∈ regexp.matchHere (regexp.OpConcat r1 r2) start s <->
  exists mid smid,
    (mid, smid) ∈ regexp.matchHere r1 start s /\
    (start', rest) ∈ regexp.matchHere r2 mid smid.
Proof.
  simpl. rewrite list_elem_of_bind. split.
  - intros ([mid smid] & ? & ?). eauto.
  - intros (mid & smid & ? & ?). exists (mid, smid). eauto.
Qed.

Lemma matchHere_alternate r1 r2 start s start' rest :
  (start', rest) ∈ regexp.matchHere (regexp.OpAlternate r1 r2) start s <->
  (start', rest) ∈ regexp.matchHere r1 start s \/
  (start', rest) ∈ regexp.matchHere r2 start s.
Proof. simpl. apply elem_of_app. Qed.

Lemma matchHere_capture r start s start' rest :
  (start', rest) ∈ regexp.matchHere (regexp.OpCapture r) start s <->
  (start', rest) ∈ regexp.matchHere r start s.
Proof. reflexivity. Qed.

(** A search succeeds when the pattern matches here or the search
    succeeds one byte further on, away from the start of the text. *)
Lemma searchFrom_true r start s :
  regexp.searchFrom r start s = true <->
  (exists m, m ∈ regexp.matchHere r start s) \/
  (exists c s', s = String c s' /\ regexp.searchFrom r false s' = true).
Proof.
  destruct s as [|c s']; simpl;
    destruct (regexp.matchHere r start _) as [|m ms] eqn:Hm.
  - split; [done | intros [[m Hin]|(c & s' & ? & _)]; [by apply elem_of_nil in Hin | done]].
  - split; [intros _; left; exists m; apply list_elem_of_here | done].
  - split; [eauto | intros [[m Hin]|(c0 & s0 & [= -> ->] & ?)]; [by apply elem_of_nil in Hin | done]].
  - split; [intros _; left; exists m; apply list_elem_of_here | done].
Qed.

End Matcher.

Ltac match_inv :=
  repeat match goal with
  | H : _ ∈ regexp.matchHere (regexp.OpConcat _ _) _ _ |- _ =>
      apply matchHere_concat in H as (? & ? & ? & H)
  | H : _ ∈ regexp.matchHere (regexp.OpAlternate _ _) _ _ |- _ =>
      apply matchHere_alternate in H as [H|H]
  | H : _ ∈ regexp.matchHere (regexp.OpCapture _) _ _ |- _ =>
      rewrite matchHere_capture in H
  | H : _ ∈ regexp.matchHere (regexp.OpLiteral _) _ _ |- _ =>
      apply matchHere_literal in H as [? ?]
  | H : _ ∈ regexp.matchHere (regexp.OpCharClass _) _ _ |- _ =>
      apply matchHere_charclass in H as (? & ? & ? & ?)
  | H : _ ∈ regexp.matchHere regexp.OpBeginText _ _ |- _ =>
      apply matchHere_begin in H as (? & ? & ?)
  end.

Lemma forbiddenPrefixPattern_matchHere (start : bool) (s : string) (m : bool * string) :
  m ∈ regexp.matchHere forbiddenPrefixPattern start s <->
  start = true /\ m.1 = false /\
  exists pfx sep,
    pfx ∈ ["syseleven.de"; "metakube"; "system"; "kubernetes.io"] /\
    sep ∈ ["/"%char; "-"%char] /\
    s = pfx +:+ String sep m.2.
Proof.
  destruct m as [start' rest]. unfold forbiddenPrefixPattern. split.
  - intros H. match_inv; subst; simpl;
      (split; [reflexivity | split; [reflexivity|]]);
      eexists _, _; (split; [|split; [eassumption | reflexivity]]); list_member.
  - intros (-> & Hst & pfx & sep & Hpfx & Hsep & Hs). simpl in Hst, Hs. subst.
    apply matchHere_concat. exists true, (pfx +:+ String sep rest).
    split; [by apply matchHere_begin|].
    apply matchHere_concat. exists false, (String sep rest). split.
    + rewrite matchHere_capture.
      rewrite !matchHere_alternate, !matchHere_literal.
      list_cases Hpfx; repeat first [split; reflexivity | left; split; reflexivity | right].
    + rewrite matchHere_capture. apply matchHere_charclass. eauto.
Qed.

Lemma forbiddenPrefixPattern_not_later (s : string) :
  regexp.searchFrom forbiddenPrefixPattern false s = false.
Proof.
  induction s as [|c s IH]; apply not_true_is_false;
    intros [[m Hm]|(c0 & s0 & Heq & Hs)]%searchFrom_true;
    try (apply forbiddenPrefixPattern_matchHere in Hm as [? _]); try done.
  injection Heq as <- <-. congruence.
Qed.

Lemma forbiddenPrefixPattern_MatchString (key : string) :
  regexp.MatchString forbiddenPrefixPattern key = true <-> hasForbiddenPrefix key.
Proof.
  unfold regexp.MatchString, hasForbiddenPrefix. rewrite searchFrom_true. split.
  - intros [[m Hm]|(c & s & _ & Hs)].
    + apply forbiddenPrefixPattern_matchHere in Hm as (_ & _ & pfx & sep & ? & ? & ?).
      eauto 6.
    + by rewrite forbiddenPrefixPattern_not_later in Hs.
  - intros (pfx & sep & rest & ? & ? & ?). left. exists (false, rest).
    apply forbiddenPrefixPattern_matchHere. eauto 8.
Qed.

(** C3. [matakubeResourceNodeDeploymentValidateLabelOrTag] returns an
    error exactly for the keys that begin with [syseleven.de],
    [metakube], [system] or [kubernetes.io] followed by [/] or [-];
    the error's message ends with the key, so it contains it; every
    other key gets [nil]. *)
Theorem validateLabelOrTag_error_iff_forbidden_prefix (key : string) :
  ((exists err, matakubeResourceNodeDeploymentValidateLabelOrTag key = Some err) <->
   hasForbiddenPrefix key) /\
  (matakubeResourceNodeDeploymentValidateLabelOrTag key = None <->
   ~ hasForbiddenPrefix key) /\
  (forall err,
     matakubeResourceNodeDeploymentValidateLabelOrTag key = Some err ->
     Error err = "forbidden tag or label prefix " +:+ key /\
     strings.Contains (Error err) key = true).
Proof.
  unfold matakubeResourceNodeDeploymentValidateLabelOrTag.
  pose proof (forbiddenPrefixPattern_MatchString key) as Hm. cbv zeta.
  destruct (regexp.MatchString forbiddenPrefixPattern key).
  - split; [|split].
    + split; [intros _; by apply Hm | eauto].
    + split; [discriminate | intros Hn; destruct Hn; by apply Hm].
    + intros err [= <-]. split; [reflexivity | apply Contains_suffix].
  - split; [|split].
    + split; [intros [err [=]] | intros H%Hm; discriminate].
    + split; [intros _ H%Hm; discriminate | reflexivity].
    + intros err [=].
Qed.

Example validateLabelOrTag_kubernetes_io :
  matakubeResourceNodeDeploymentValidateLabelOrTag "kubernetes.io/foo" =
  Some (Errorf "forbidden tag or label prefix kubernetes.io/foo").
Proof. reflexivity. Qed.

Example validateLabelOrTag_system_dash :
  matakubeResourceNodeDeploymentValidateLabelOrTag "system-bar" =
  Some (Errorf "forbidden tag or label prefix system-bar").
Proof. reflexivity. Qed.

Example validateLabelOrTag_syseleven :
  matakubeResourceNodeDeploymentValidateLabelOrTag "syseleven.de/baz" =
  Some (Errorf "forbidden tag or label prefix syseleven.de/baz").
Proof. reflexivity. Qed.

Example validateLabelOrTag_inner_occurrence :
  matakubeResourceNodeDeploymentValidateLabelOrTag "my-system-bar" = None /\
  matakubeResourceNodeDeploymentValidateLabelOrTag "systemd" = None /\
  matakubeResourceNodeDeploymentValidateLabelOrTag "syseleven_de/baz" = None.
Proof. repeat split; reflexivity. Qed.

(** *** The duration validator and the schema tables *)

Section Properties.

Variable time_ParseDuration : string -> Z * option error.

Local Abbreviation specFields :=
  (matakubeResourceNodeDeploymentSpecFields time_ParseDuration).

(** C4. [isNonEmptyDurationString] returns no diagnostics exactly for
    the strings [time.ParseDuration] accepts; for every other value
    it returns exactly one diagnostic, of severity error, and when
    the value is a string that diagnostic's summary quotes the string
    and the parser's error. *)
Theorem isNonEmptyDurationString_diagnostics (v : Value) (p : cty.Path) :
  (isNonEmptyDurationString time_ParseDuration v p = [] <-> parsesAsDuration time_ParseDuration v) /\
  ((exists d,
      isNonEmptyDurationString time_ParseDuration v p = [d] /\
      diag.Severity_ d = diag.Error /\
      diag.AttributePath d = p /\
      forall s, v = VString s ->
        exists e,
          (time_ParseDuration s).2 = Some e /\
          diag.Summary d = "could not parse '" +:+ s +:+ "': " +:+ Error e /\
          hasSubstring (diag.Summary d) s) <->
   ~ parsesAsDuration time_ParseDuration v).
Proof.
  unfold parsesAsDuration, isNonEmptyDurationString.
  destruct v as [| | |s| |]; try (split; split;
    [ discriminate
    | intros (s & [=] & _)
    | intros _ (s & [=] & _)
    | intros _; eexists; repeat split; intros s [=] ]).
  destruct (time_ParseDuration s) as [dur [e|]] eqn:Hparse; simpl; split; split.
  - discriminate.
  - intros (s' & [= <-] & He). rewrite Hparse in He. discriminate.
  - intros _ (s' & [= <-] & He). rewrite Hparse in He. discriminate.
  - intros _. eexists. repeat split. intros s' [= <-]. exists e.
    rewrite Hparse. repeat split. by exists "could not parse '", ("': " +:+ Error e).
  - intros _. exists s. by rewrite Hparse.
  - reflexivity.
  - intros (d & [=] & _).
  - intros Hn. destruct Hn. exists s. by rewrite Hparse.
Qed.

Example isNonEmptyDurationString_not_a_string :
  isNonEmptyDurationString time_ParseDuration (VInt 5) [cty.GetAttrStep "spec"] =
  [ diag.mkDiagnostic diag.Error "Should be a duration string" "" [cty.GetAttrStep "spec"] ].
Proof. reflexivity. Qed.

(** C7. The declared defaults: ["5s"] for the OpenStack
    [instance_ready_check_period], ["120s"] for its
    [instance_ready_check_timeout], [3] for [replicas], [true] for the
    AWS [assign_public_ip] and [false] for the Azure one. *)
Theorem declared_defaults :
  schema.Default <$>
    schema.fieldAt ["template"; "cloud"; "openstack"; "instance_ready_check_period"] specFields
    = Some (Some (VString "5s")) /\
  schema.Default <$>
    schema.fieldAt ["template"; "cloud"; "openstack"; "instance_ready_check_timeout"] specFields
    = Some (Some (VString "120s")) /\
  schema.Default <$> schema.fieldAt ["replicas"] specFields = Some (Some (VInt 3)) /\
  schema.Default <$>
    schema.fieldAt ["template"; "cloud"; "aws"; "assign_public_ip"] specFields
    = Some (Some (VBool true)) /\
  schema.Default <$>
    schema.fieldAt ["template"; "cloud"; "azure"; "assign_public_ip"] specFields
    = Some (Some (VBool false)).
Proof. repeat split; vm_compute; reflexivity. Qed.

(** C8. The diff-suppression functions of the template labels and of
    the AWS, OpenStack and Azure tags all return, on every key, what
    [matakubeResourceNodeDeploymentLabelOrTagReserved] returns. *)
Theorem label_and_tag_diffs_suppressed_iff_reserved :
  suppressesReservedKeys time_ParseDuration ["template"; "labels"] /\
  suppressesReservedKeys time_ParseDuration ["template"; "cloud"; "aws"; "tags"] /\
  suppressesReservedKeys time_ParseDuration ["template"; "cloud"; "openstack"; "tags"] /\
  suppressesReservedKeys time_ParseDuration ["template"; "cloud"; "azure"; "tags"].
Proof.
  repeat split; (eexists; split; [vm_compute; reflexivity | intros; reflexivity]).
Qed.

Lemma returns_bool_iff (o : outcome bool) (P : Prop) (b : bool) :
  o = Returns b -> (b = true <-> P) ->
  (o = Returns true <-> P) /\ (o = Returns false <-> ~ P).
Proof.
  intros -> HP. destruct b; split; split; try done.
  - intros _. by apply HP.
  - intros Hn. destruct Hn. by apply HP.
  - intros [= ?]%HP.
  - intros _ [= ?]%HP.
Qed.

(** C9. The diff on [replicas] is suppressed exactly when the
    configuration sets both [spec.0.min_replicas] and
    [spec.0.max_replicas] and both are above zero; in every other
    state it is not suppressed. *)
Theorem replicas_diff_suppressed_iff_autoscaling
    (d : schema.ResourceData) (k old new : string) :
  configuredAsInt d "spec.0.min_replicas" ->
  configuredAsInt d "spec.0.max_replicas" ->
  exists f,
    schema.DiffSuppressFunc <$> schema.fieldAt ["replicas"] specFields = Some (Some f) /\
    (f k old new d = Returns true <->
     configuredPositive d "spec.0.min_replicas" /\
     configuredPositive d "spec.0.max_replicas") /\
    (f k old new d = Returns false <->
     ~ (configuredPositive d "spec.0.min_replicas" /\
        configuredPositive d "spec.0.max_replicas")).
Proof.
  intros Hmin Hmax. eexists. split; [reflexivity|].
  unfold configuredAsInt, configuredPositive in *. cbv beta.
  destruct (schema.GetOkConfigured d "spec.0.min_replicas") as [minv ok1].
  destruct (schema.GetOkConfigured d "spec.0.max_replicas") as [maxv ok2].
  destruct ok1.
  - destruct (Hmin _ eq_refl) as [m ->]. destruct ok2.
    + destruct (Hmax _ eq_refl) as [n ->].
      apply (returns_bool_iff _ _ ((m >? 0) && (n >? 0))).
      { cbn. destruct (m >? 0); reflexivity. }
      rewrite andb_true_iff, !Z.gtb_gt. split.
      * intros [? ?]. split; eexists; (split; [reflexivity | lia]).
      * intros [(? & [= <-] & ?) (? & [= <-] & ?)]. lia.
    + apply (returns_bool_iff _ _ false).
      { cbn. destruct (m >? 0); reflexivity. }
      split; [discriminate | intros [_ (? & [=] & _)]].
  - apply (returns_bool_iff _ _ false); [reflexivity|].
    split; [discriminate | intros [(? & [=] & _) _]].
Qed.

(** C10. The validator of a taint's [effect] accepts exactly the
    strings [NoSchedule], [PreferNoSchedule] and [NoExecute], spelled
    with these capitals, and returns one error for any other string. *)
Theorem taint_effect_valid_iff_listed (v k : string) :
  exists f,
    schema.ValidateFunc <$> schema.fieldAt ["template"; "taints"; "effect"] specFields
      = Some (Some f) /\
    (f (VString v) k = Returns ([], []) <->
     v ∈ ["NoSchedule"; "PreferNoSchedule"; "NoExecute"]) /\
    ((exists err, f (VString v) k = Returns ([], [err])) <->
     v ∉ ["NoSchedule"; "PreferNoSchedule"; "NoExecute"]).
Proof.
  eexists. split; [reflexivity|].
  unfold validation.StringInSlice. cbn [existsb andb]. rewrite !orb_false_r.
  destruct (String.eqb_spec v "NoSchedule") as [->|H1];
    [split; split;
       [ intros _; list_member | reflexivity | intros [err [=]]
       | intros H; contradict H; list_member ]|].
  destruct (String.eqb_spec v "PreferNoSchedule") as [->|H2];
    [split; split;
       [ intros _; list_member | reflexivity | intros [err [=]]
       | intros H; contradict H; list_member ]|].
  destruct (String.eqb_spec v "NoExecute") as [->|H3];
    [split; split;
       [ intros _; list_member | reflexivity | intros [err [=]]
       | intros H; contradict H; list_member ]|].
  cbn [orb]. split; split.
  - discriminate.
  - intros Hin. list_cases Hin; contradiction.
  - intros _ Hin. list_cases Hin; contradiction.
  - eauto.
Qed.

Example taint_effect_lower_case_rejected :
  schema.ValidateFunc <$> schema.fieldAt ["template"; "taints"; "effect"] specFields
  = Some (Some (fun v k =>
      validation.StringInSlice ["NoSchedule"; "PreferNoSchedule"; "NoExecute"] false v k)) /\
  validation.StringInSlice ["NoSchedule"; "PreferNoSchedule"; "NoExecute"] false
    (VString "noschedule") "effect"
  = Returns ([], [Errorf "expected effect to be one of [NoSchedule PreferNoSchedule NoExecute], got noschedule"]).
Proof. split; reflexivity. Qed.

Ltac config_cases configured :=
  vm_compute;
  repeat match goal with
  | |- context [configured ?k] => destruct (configured k)
  end; vm_compute; intuition congruence.

(** C5. [replicas] declares a conflict with [spec.0.min_replicas] and
    [spec.0.max_replicas], and each of the two bounds requires the
    other; so a configuration of the spec block passes these
    constraints exactly when it does not set [replicas] next to a
    bound and sets both bounds or neither. *)
Theorem replicas_conflicts_with_autoscaling_bounds :
  schema.ConflictsWith <$> schema.fieldAt ["replicas"] specFields
    = Some ["spec.0.min_replicas"; "spec.0.max_replicas"] /\
  schema.RequiredWith <$> schema.fieldAt ["min_replicas"] specFields
    = Some ["spec.0.max_replicas"] /\
  schema.RequiredWith <$> schema.fieldAt ["max_replicas"] specFields
    = Some ["spec.0.min_replicas"] /\
  forall configured : string -> bool,
    host.validateConstraints "spec.0." specFields configured = [] <->
    ~ (configured "spec.0.replicas" = true /\
       (configured "spec.0.min_replicas" = true \/
        configured "spec.0.max_replicas" = true)) /\
    configured "spec.0.min_replicas" = configured "spec.0.max_replicas".
Proof.
  split; [reflexivity|]. split; [reflexivity|]. split; [reflexivity|].
  intros configured. config_cases configured.
Qed.

(** C6. [ubuntu] and [flatcar] each declare exactly-one-of over the
    pair of their two addresses; so a configuration of the
    operating-system block passes these constraints exactly when it
    sets one of the two and not the other. *)
Theorem operating_system_exactly_one_of_ubuntu_flatcar :
  schema.ExactlyOneOf <$>
    schema.fieldAt ["template"; "operating_system"; "ubuntu"] specFields
    = Some ["spec.0.template.0.operating_system.0.ubuntu";
            "spec.0.template.0.operating_system.0.flatcar"] /\
  schema.ExactlyOneOf <$>
    schema.fieldAt ["template"; "operating_system"; "flatcar"] specFields
    = Some ["spec.0.template.0.operating_system.0.ubuntu";
            "spec.0.template.0.operating_system.0.flatcar"] /\
  exists fields,
    schema.blockAt ["template"; "operating_system"] specFields = Some fields /\
    dom fields = {["ubuntu"; "flatcar"]} /\
    forall configured : string -> bool,
      host.validateConstraints "spec.0.template.0.operating_system.0." fields configured = [] <->
      (configured "spec.0.template.0.operating_system.0.ubuntu" = true /\
       configured "spec.0.template.0.operating_system.0.flatcar" = false) \/
      (configured "spec.0.template.0.operating_system.0.ubuntu" = false /\
       configured "spec.0.template.0.operating_system.0.flatcar" = true).
Proof.
  split; [reflexivity|]. split; [reflexivity|].
  eexists. split; [reflexivity|]. split; [compute_done|].
  intros configured. config_cases configured.
Qed.

(** C1, as the schema has it. The cloud block has the four optional
    fields [bringyourown], [aws], [openstack] and [azure]; none of
    them declares an exactly-one-of, conflicts-with or required-with
    constraint, so every configuration of the block passes the
    constraints between attributes. *)
Theorem cloud_block_declares_no_exclusivity :
  exists fields,
    schema.blockAt ["template"; "cloud"] specFields = Some fields /\
    dom fields = {["bringyourown"; "aws"; "openstack"; "azure"]} /\
    optionalUnconstrained fields "bringyourown" /\
    optionalUnconstrained fields "aws" /\
    optionalUnconstrained fields "openstack" /\
    optionalUnconstrained fields "azure" /\
    forall configured : string -> bool,
      host.validateConstraints "spec.0.template.0.cloud.0." fields configured = [].
Proof.
  eexists. split; [reflexivity|]. split; [compute_done|].
  repeat (split; [eexists; split; [reflexivity | by repeat split]|]).
  intros configured. config_cases configured.
Qed.

End Properties.

(** *** Closed instances *)

(** C9 at a configuration that sets both bounds, to 1 and 5. *)
Lemma replicas_diff_suppressed_autoscaling_1_5 :
  configuredAsInt (autoscalingData 1 5) "spec.0.min_replicas" /\
  configuredAsInt (autoscalingData 1 5) "spec.0.max_replicas" /\
  exists f,
    schema.DiffSuppressFunc <$>
      schema.fieldAt ["replicas"] (matakubeResourceNodeDeploymentSpecFields rejectingParser)
      = Some (Some f) /\
    (f "spec.0.replicas" "3" "0" (autoscalingData 1 5) = Returns true <->
     configuredPositive (autoscalingData 1 5) "spec.0.min_replicas" /\
     configuredPositive (autoscalingData 1 5) "spec.0.max_replicas") /\
    (f "spec.0.replicas" "3" "0" (autoscalingData 1 5) = Returns false <->
     ~ (configuredPositive (autoscalingData 1 5) "spec.0.min_replicas" /\
        configuredPositive (autoscalingData 1 5) "spec.0.max_replicas")).
Proof.
  assert (Hmin : configuredAsInt (autoscalingData 1 5) "spec.0.min_replicas").
  { intros v Hv. vm_compute in Hv. injection Hv as <-. by exists 1. }
  assert (Hmax : configuredAsInt (autoscalingData 1 5) "spec.0.max_replicas").
  { intros v Hv. vm_compute in Hv. injection Hv as <-. by exists 5. }
  split; [exact Hmin|]. split; [exact Hmax|].
  exact (replicas_diff_suppressed_iff_autoscaling rejectingParser
           (autoscalingData 1 5) "spec.0.replicas" "3" "0" Hmin Hmax).
Defined.

Example replicas_diff_suppression_runs :
  forall f,
    schema.DiffSuppressFunc <$>
      schema.fieldAt ["replicas"] (matakubeResourceNodeDeploymentSpecFields rejectingParser)
      = Some (Some f) ->
    f "spec.0.replicas" "3" "0" (autoscalingData 1 5) = Returns true /\
    f "spec.0.replicas" "3" "0" (autoscalingData 0 5) = Returns false /\
    f "spec.0.replicas" "3" "0" (autoscalingData 2 (-1)) = Returns false /\
    f "spec.0.replicas" "3" "0" (schema.mkResourceData (fun _ => (VNil, false)))
      = Returns false.
Proof. intros f [= <-]. repeat split; reflexivity. Qed.

Example isNonEmptyDurationString_rejected_string :
  isNonEmptyDurationString rejectingParser (VString "abc") [] =
  [ diag.mkDiagnostic diag.Error "could not parse 'abc': time: invalid duration abc" "" [] ].
Proof. reflexivity. Qed.

(** C1, as the specification words it, fails: the [aws] field
    declares no exactly-one-of list, and the configuration that sets
    both [aws] and [openstack] passes the constraints of the cloud
    block, as does the one that sets none of the four. *)
Lemma cloud_block_accepts_aws_with_openstack :
  exists fields,
    schema.blockAt ["template"; "cloud"]
      (matakubeResourceNodeDeploymentSpecFields rejectingParser) = Some fields /\
    schema.ExactlyOneOf <$> fields !! "aws" = Some [] /\
    awsAndOpenstack "spec.0.template.0.cloud.0.aws" = true /\
    awsAndOpenstack "spec.0.template.0.cloud.0.openstack" = true /\
    host.validateConstraints "spec.0.template.0.cloud.0." fields awsAndOpenstack = [] /\
    host.validateConstraints "spec.0.template.0.cloud.0." fields (fun _ => false) = [].
Proof. eexists. split; [reflexivity|]. repeat split; vm_compute; reflexivity. Qed.

(** ** Further properties of the file's functions *)

(** *** The two key predicates together *)

Lemma hasSubstring_extend (before s after substr : string) :
  hasSubstring s substr -> hasSubstring (before +:+ s +:+ after) substr.
Proof.
  intros (p & q & ->). exists (before +:+ p), (q +:+ after).
  by rewrite !append_assoc.
Qed.

Lemma reserved_true (path : string) :
  matakubeResourceNodeDeploymentLabelOrTagReserved path = true <->
  exists substr,
    substr ∈ [ "metakube-cluster"; "system-project"; "system-cluster";
               "system/cluster"; "system/project"; "kubernetes.io";
               "syseleven.de" ] /\
    hasSubstring path substr.
Proof.
  unfold matakubeResourceNodeDeploymentLabelOrTagReserved, hasSubstring. simpl.
  repeat match goal with
  | |- context [strings.Contains path ?sub] =>
      let E := fresh "E" in
      destruct (strings.Contains path sub) eqn:E;
      [ apply Contains_true in E; split;
        [ intros _; exists sub; split; [list_member | exact E] | reflexivity ]
      | apply Contains_false in E ]
  end.
  split; [discriminate|].
  intros (substr & Hin & Hsub). list_cases Hin; contradiction.
Qed.

(** X1. A key stays reserved whatever is written before or after it. *)
Theorem reserved_closed_under_extension (before key after : string) :
  matakubeResourceNodeDeploymentLabelOrTagReserved key = true ->
  matakubeResourceNodeDeploymentLabelOrTagReserved (before +:+ key +:+ after) = true.
Proof.
  rewrite !reserved_true. intros (substr & Hin & Hsub).
  exists substr. split; [exact Hin | by apply hasSubstring_extend].
Qed.

Lemma reserved_closed_under_extension_role :
  matakubeResourceNodeDeploymentLabelOrTagReserved "kubernetes.io" = true /\
  matakubeResourceNodeDeploymentLabelOrTagReserved
    ("node-role." +:+ "kubernetes.io" +:+ "/worker") = true.
Proof.
  split; [reflexivity|].
  exact (reserved_closed_under_extension "node-role." "kubernetes.io" "/worker" eq_refl).
Defined.

Lemma validateLabelOrTag_Some (key : string) (err : error) :
  matakubeResourceNodeDeploymentValidateLabelOrTag key = Some err <->
  hasForbiddenPrefix key /\ err = forbiddenPrefixError key.
Proof.
  unfold matakubeResourceNodeDeploymentValidateLabelOrTag, forbiddenPrefixError.
  pose proof (forbiddenPrefixPattern_MatchString key) as Hm. cbv zeta.
  destruct (regexp.MatchString forbiddenPrefixPattern key).
  - split; [intros [= <-]; split; [by apply Hm | reflexivity] | intros [_ ->]; reflexivity].
  - split; [discriminate | intros [H%Hm _]; discriminate].
Qed.

Lemma validateLabelOrTag_None (key : string) :
  matakubeResourceNodeDeploymentValidateLabelOrTag key = None <->
  ~ hasForbiddenPrefix key.
Proof.
  destruct (matakubeResourceNodeDeploymentValidateLabelOrTag key) as [err|] eqn:Hv.
  - apply validateLabelOrTag_Some in Hv as [Hf _]. split; [discriminate | contradiction].
  - split; [|reflexivity]. intros _ Hf.
    assert (matakubeResourceNodeDeploymentValidateLabelOrTag key =
            Some (forbiddenPrefixError key)) as Hs by (by apply validateLabelOrTag_Some).
    congruence.
Qed.

(** X2. The validator looks at the head of the key only: a rejected key
    stays rejected whatever is appended to it. *)
Theorem validateLabelOrTag_rejects_extensions (key suffix : string) (err : error) :
  matakubeResourceNodeDeploymentValidateLabelOrTag key = Some err ->
  matakubeResourceNodeDeploymentValidateLabelOrTag (key +:+ suffix) =
  Some (Errorf ("forbidden tag or label prefix " +:+ key +:+ suffix)).
Proof.
  intros [(pfx & sep & rest & Hpfx & Hsep & ->) _]%validateLabelOrTag_Some.
  apply validateLabelOrTag_Some. split; [|reflexivity].
  exists pfx, sep, (rest +:+ suffix). repeat split; try done.
  by rewrite append_assoc, append_cons.
Qed.

Lemma validateLabelOrTag_rejects_extensions_system :
  matakubeResourceNodeDeploymentValidateLabelOrTag "system-" =
    Some (Errorf "forbidden tag or label prefix system-") /\
  matakubeResourceNodeDeploymentValidateLabelOrTag ("system-" +:+ "pool") =
    Some (Errorf ("forbidden tag or label prefix " +:+ "system-" +:+ "pool")).
Proof.
  split; [reflexivity|].
  exact (validateLabelOrTag_rejects_extensions "system-" "pool" _ eq_refl).
Defined.

(** X3. Only a key that starts with [s], [m] or [k] can be rejected; in
    particular a reserved name that is not at the head of the key is
    let through. *)
Theorem validateLabelOrTag_accepts_other_first_bytes (c : ascii) (rest : string) :
  c ∉ ["s"%char; "m"%char; "k"%char] ->
  matakubeResourceNodeDeploymentValidateLabelOrTag (String c rest) = None.
Proof.
  intros Hc. apply validateLabelOrTag_None.
  intros (pfx & sep & rest' & Hpfx & _ & Heq).
  apply Hc. list_cases Hpfx; rewrite append_cons in Heq;
    injection Heq as -> _; list_member.
Qed.

Lemma validateLabelOrTag_accepts_other_first_bytes_app :
  ("a"%char ∉ ["s"%char; "m"%char; "k"%char]) /\
  matakubeResourceNodeDeploymentValidateLabelOrTag (String "a" "pp.kubernetes.io/name") = None.
Proof.
  assert (H : "a"%char ∉ ["s"%char; "m"%char; "k"%char]).
  { compute_done. }
  split; [exact H|].
  exact (validateLabelOrTag_accepts_other_first_bytes "a" "pp.kubernetes.io/name" H).
Defined.

(** X4. A key the validator rejects is one whose diffs are suppressed,
    unless it is rejected for a [metakube] or [system] prefix. *)
Theorem rejected_key_is_reserved_or_metakube_or_system (key : string) (err : error) :
  matakubeResourceNodeDeploymentValidateLabelOrTag key = Some err ->
  matakubeResourceNodeDeploymentLabelOrTagReserved key = true \/
  strings.HasPrefix key "metakube" = true \/
  strings.HasPrefix key "system" = true.
Proof.
  intros [(pfx & sep & rest & Hpfx & _ & ->) _]%validateLabelOrTag_Some.
  list_cases Hpfx.
  - left. apply reserved_true. exists "syseleven.de". split; [list_member|].
    by exists "", (String sep rest).
  - right. left. apply HasPrefix_true. eauto.
  - right. right. apply HasPrefix_true. eauto.
  - left. apply reserved_true. exists "kubernetes.io". split; [list_member|].
    by exists "", (String sep rest).
Qed.

Lemma rejected_key_is_reserved_kubernetes_io :
  matakubeResourceNodeDeploymentValidateLabelOrTag "kubernetes.io/arch" =
    Some (Errorf "forbidden tag or label prefix kubernetes.io/arch") /\
  (matakubeResourceNodeDeploymentLabelOrTagReserved "kubernetes.io/arch" = true \/
   strings.HasPrefix "kubernetes.io/arch" "metakube" = true \/
   strings.HasPrefix "kubernetes.io/arch" "system" = true).
Proof.
  split; [reflexivity|].
  exact (rejected_key_is_reserved_or_metakube_or_system "kubernetes.io/arch" _ eq_refl).
Defined.

Example rejected_but_not_reserved :
  matakubeResourceNodeDeploymentValidateLabelOrTag "system-pool" =
    Some (Errorf "forbidden tag or label prefix system-pool") /\
  matakubeResourceNodeDeploymentLabelOrTagReserved "system-pool" = false /\
  matakubeResourceNodeDeploymentValidateLabelOrTag "metakube/pool" =
    Some (Errorf "forbidden tag or label prefix metakube/pool") /\
  matakubeResourceNodeDeploymentLabelOrTagReserved "metakube/pool" = false.
Proof. repeat split; reflexivity. Qed.

(** *** The validators of the labels and tags maps *)

Lemma forbiddenPrefixError_inj (key1 key2 : string) :
  forbiddenPrefixError key1 = forbiddenPrefixError key2 -> key1 = key2.
Proof. intros [= H]. by apply (inj (String.append _)) in H. Qed.

Lemma collect_errors (keys : list string) (acc : list error) :
  foldl (fun errors key =>
           match matakubeResourceNodeDeploymentValidateLabelOrTag key with
           | Some err => errors ++ [err]
           | None => errors
           end) acc keys
  = acc ++ omap matakubeResourceNodeDeploymentValidateLabelOrTag keys.
Proof.
  revert acc. induction keys as [|key keys IH]; intros acc; simpl.
  - by rewrite app_nil_r.
  - rewrite IH. destruct (matakubeResourceNodeDeploymentValidateLabelOrTag key);
      [by rewrite <- app_assoc | done].
Qed.

Lemma elem_of_key_errors (keys : list string) (e : error) :
  e ∈ omap matakubeResourceNodeDeploymentValidateLabelOrTag keys <->
  exists key, key ∈ keys /\ hasForbiddenPrefix key /\ e = forbiddenPrefixError key.
Proof.
  rewrite list_elem_of_omap. split.
  - intros (key & Hin & [? ->]%validateLabelOrTag_Some). eauto.
  - intros (key & Hin & Hf & ->). exists key. split; [done|].
    by apply validateLabelOrTag_Some.
Qed.

Lemma NoDup_key_errors (keys : list string) :
  NoDup keys -> NoDup (omap matakubeResourceNodeDeploymentValidateLabelOrTag keys).
Proof.
  induction 1 as [|key keys Hnotin Hnodup IH]; simpl; [constructor|].
  destruct (matakubeResourceNodeDeploymentValidateLabelOrTag key) as [e|] eqn:Hv; [|done].
  constructor; [|done].
  apply validateLabelOrTag_Some in Hv as [_ ->].
  intros (key' & Hin & _ & ->%forbiddenPrefixError_inj)%elem_of_key_errors. done.
Qed.

Lemma validateLabelsOrTags_map (m : gmap string Value) (k : string) :
  exists errs,
    validateLabelsOrTags (VMap m) k = Returns ([], errs) /\
    NoDup errs /\
    forall e, e ∈ errs <->
      exists key, is_Some (m !! key) /\ hasForbiddenPrefix key /\
                  e = forbiddenPrefixError key.
Proof.
  eexists. split; [reflexivity|]. rewrite collect_errors, app_nil_l. split.
  - apply NoDup_key_errors, NoDup_fst_map_to_list.
  - intros e. rewrite elem_of_key_errors.
    assert (Hkeys : forall key, key ∈ (map_to_list m).*1 <-> is_Some (m !! key)).
    { intros key. rewrite list_elem_of_fmap. split.
      - intros ([key' v] & -> & Hin%elem_of_map_to_list). by exists v.
      - intros [v Hv]. exists (key, v). by rewrite elem_of_map_to_list. }
    by setoid_rewrite Hkeys.
Qed.

(** *** Every field of the tree *)

Lemma fieldAt_cons (name name' : string) (rest : list string)
    (fields : gmap string schema.Schema) :
  schema.fieldAt (name :: name' :: rest) fields =
  t ← fields !! name; nested ← schema.blockFields t;
  schema.fieldAt (name' :: rest) nested.
Proof. reflexivity. Qed.

Lemma checkTree_sound (P : list string -> schema.Schema -> bool) (fuel : nat)
    (pfx : list string) (fields : gmap string schema.Schema) :
  checkTree P fuel pfx fields = true ->
  forall path s, schema.fieldAt path fields = Some s -> P (pfx ++ path) s = true.
Proof.
  revert pfx fields. induction fuel as [|fuel IH]; intros pfx fields Hcheck; [done|].
  simpl in Hcheck. rewrite forallb_forall in Hcheck.
  intros [|name rest] s Hs; [done|].
  assert (Hstep : forall t, fields !! name = Some t ->
            P (pfx ++ [name]) t = true /\
            forall nested, schema.blockFields t = Some nested ->
              checkTree P fuel (pfx ++ [name]) nested = true).
  { intros t Ht. apply elem_of_map_to_list, list_elem_of_In, Hcheck in Ht.
    apply andb_true_iff in Ht as [HP Hnested]. split; [done|].
    intros nested Hb. by rewrite Hb in Hnested. }
  destruct rest as [|name' rest].
  - simpl in Hs. by apply Hstep.
  - rewrite fieldAt_cons in Hs.
    destruct (fields !! name) as [t|] eqn:Ht; [|done].
    cbn [mbind option_bind] in Hs.
    destruct (schema.blockFields t) as [nested|] eqn:Hb; [|done].
    cbn [mbind option_bind] in Hs.
    destruct (Hstep t eq_refl) as [_ Hnested].
    specialize (IH _ _ (Hnested nested Hb) _ _ Hs).
    by rewrite <- app_assoc in IH.
Qed.

Lemma presenceOk_true (s : schema.Schema) :
  presenceOk s = true ->
  schema.Required s = negb (schema.Optional s) /\
  (schema.Required s = true -> schema.Default s = None) /\
  (schema.Computed s = true ->
   schema.Optional s = true /\ schema.Default s = None).
Proof.
  unfold presenceOk.
  destruct (schema.Required s), (schema.Optional s), (schema.Computed s),
    (schema.Default s); cbn; intros; try done; repeat split; done.
Qed.

Lemma ValueType_eqb_true (a b : schema.ValueType) :
  ValueType_eqb a b = true -> a = b.
Proof. by destruct a, b. Qed.

Lemma shapeOk_true (s : schema.Schema) :
  shapeOk s = true ->
  (forall v, schema.Default s = Some v -> typeOfValue v = schema.Type_ s) /\
  match schema.Type_ s with
  | schema.TypeBool | schema.TypeInt | schema.TypeString =>
      schema.Elem s = schema.ElemNil /\ schema.MaxItems s = 0
  | schema.TypeMap =>
      exists e, schema.Elem s = schema.ElemSchema e /\
                schema.Type_ e = schema.TypeString
  | schema.TypeList =>
      (exists block, schema.Elem s = schema.ElemResource block) \/
      (exists e, schema.Elem s = schema.ElemSchema e /\
                 schema.Type_ e = schema.TypeString)
  | _ => False
  end /\
  0 <= schema.MinItems s <= schema.MaxItems s /\ schema.MaxItems s <= 1.
Proof.
  unfold shapeOk. rewrite !andb_true_iff.
  intros [[[[Hdef Hty] H0] Hmin] Hmax].
  apply Z.leb_le in H0, Hmin, Hmax. split; [|split; [|lia]].
  - intros v Hv. rewrite Hv in Hdef. by apply ValueType_eqb_true.
  - destruct (schema.Type_ s), (schema.Elem s) as [|e|block]; try done.
    + apply andb_true_iff in Hty as [_ ?%Z.eqb_eq]. done.
    + apply andb_true_iff in Hty as [_ ?%Z.eqb_eq]. done.
    + apply andb_true_iff in Hty as [_ ?%Z.eqb_eq]. done.
    + right. exists e. split; [done | by apply ValueType_eqb_true].
    + left. by exists block.
    + exists e. split; [done | by apply ValueType_eqb_true].
Qed.

Lemma scalar_eqb_true (v w : Value) : scalar_eqb v w = true -> v = w.
Proof.
  destruct v, w; simpl; try done.
  - by intros ->%Bool.eqb_prop.
  - by intros ->%Z.eqb_eq.
  - by intros ->%String.eqb_eq.
Qed.

Lemma defaultIs_true (expected : option Value) (s : schema.Schema) :
  defaultIs expected s = true -> schema.Default s = expected.
Proof.
  unfold defaultIs. destruct (schema.Default s), expected; try done.
  by intros ->%scalar_eqb_true.
Qed.

Lemma isNone_false {A} (o : option A) : negb (isNone o) = true <-> is_Some o.
Proof.
  destruct o; simpl.
  - split; [eauto | done].
  - split; [done | by intros [? ?]].
Qed.

Lemma eqb_bool_decide (b : bool) (P : Prop) `{Decision P} :
  Bool.eqb b (bool_decide P) = true -> (b = true <-> P).
Proof. intros ->%Bool.eqb_prop. apply bool_decide_eq_true. Qed.

Lemma hooksAre_true (path : list string) (s : schema.Schema) :
  hooksAre path s = true ->
  (is_Some (schema.DiffSuppressFunc s) <-> path ∈ diffSuppressingFields) /\
  (is_Some (schema.ValidateFunc s) <-> path ∈ validatedFields) /\
  (is_Some (schema.ValidateDiagFunc s) <-> path ∈ durationFields) /\
  (schema.ForceNew s = true <-> path ∈ forceNewFields).
Proof.
  unfold hooksAre. rewrite !andb_true_iff.
  intros [[[H1 H2] H3] H4].
  apply eqb_bool_decide in H1, H2, H3, H4.
  rewrite <- !isNone_false. done.
Qed.

Lemma blockAt_cons (name : string) (rest : list string)
    (fields : gmap string schema.Schema) :
  schema.blockAt (name :: rest) fields =
  t ← fields !! name; nested ← schema.blockFields t; schema.blockAt rest nested.
Proof.
  destruct rest as [|name' rest].
  - simpl. destruct (fields !! name) as [t|]; [|done]. simpl.
    by destruct (schema.blockFields t).
  - unfold schema.blockAt. rewrite fieldAt_cons.
    destruct (fields !! name) as [t|]; [|done]. cbn [mbind option_bind].
    by destruct (schema.blockFields t).
Qed.

Lemma fieldAt_snoc (parent : list string) (name : string)
    (fields block : gmap string schema.Schema) (t : schema.Schema) :
  schema.blockAt parent fields = Some block -> block !! name = Some t ->
  schema.fieldAt (parent ++ [name]) fields = Some t.
Proof.
  revert fields. induction parent as [|p parent IH]; intros fields Hb Ht.
  - injection Hb as ->. exact Ht.
  - rewrite blockAt_cons in Hb.
    destruct (fields !! p) as [u|] eqn:Hu; [|done]. cbn [mbind option_bind] in Hb.
    destruct (schema.blockFields u) as [nested|] eqn:Hn; [|done].
    cbn [mbind option_bind] in Hb. specialize (IH nested Hb Ht).
    destruct (parent ++ [name]) as [|q qs] eqn:Hq; [by destruct parent|].
    change ((p :: parent) ++ [name]) with (p :: (parent ++ [name])).
    rewrite Hq, fieldAt_cons, Hu. cbn [mbind option_bind].
    rewrite Hn. exact IH.
Qed.

Lemma constraintsOk_true (fields : gmap string schema.Schema)
    (path : list string) (s : schema.Schema) :
  constraintsOk fields path s = true ->
  (constraintKeys s <> [] <-> path ∈ constrainedFields) /\
  forall key, key ∈ constraintKeys s ->
    exists name t,
      schema.fieldAt (removelast path ++ [name]) fields = Some t /\
      key = address (removelast path ++ [name]) /\
      schema.Optional t = true /\ schema.Required t = false.
Proof.
  unfold constraintsOk. rewrite andb_true_iff. intros [Hwhich Hkeys]. split.
  - apply eqb_bool_decide in Hwhich. rewrite <- Hwhich.
    rewrite negb_true_iff, bool_decide_eq_false. done.
  - intros key Hkey. rewrite forallb_forall in Hkeys.
    apply list_elem_of_In, Hkeys, existsb_exists in Hkey as ([name t] & Hin & Hok).
    apply andb_true_iff in Hok as [[Heq Hopt]%andb_true_iff Hreq].
    apply String.eqb_eq in Heq. apply negb_true_iff in Hreq.
    exists name, t. repeat split; try done.
    unfold siblings in Hin.
    destruct (schema.blockAt (removelast path) fields) as [block|] eqn:Hb; [|done].
    apply list_elem_of_In, elem_of_map_to_list in Hin.
    by apply (fieldAt_snoc _ _ _ block).
Qed.

Lemma no_constraint_no_error (k : string) (s : schema.Schema)
    (configured : string -> bool) :
  constraintKeys s = [] ->
  host.exactlyOneOf k s configured ++ host.requiredWith k s configured ++
  host.conflictsWith k s configured = [].
Proof.
  unfold constraintKeys. intros [Hc [Hr He]%app_eq_nil]%app_eq_nil.
  unfold host.exactlyOneOf, host.requiredWith, host.conflictsWith.
  rewrite Hc, Hr, He. simpl. rewrite andb_false_r. by destruct (configured k).
Qed.

Lemma constrained_parent (parent : list string) (name : string) :
  parent ++ [name] ∈ constrainedFields ->
  parent ∈ [ []; ["template"; "operating_system"] ].
Proof.
  unfold constrainedFields. intros Hin.
  repeat (apply elem_of_cons in Hin as [Heq|Hin]);
    [..|by apply elem_of_nil in Hin];
    destruct parent as [|a [|b [|c parent]]]; simplify_eq/=;
    try list_member; by destruct parent.
Qed.

Lemma mjoin_all_nil {A} (ls : list (list A)) :
  Forall (fun l => l = []) ls -> mjoin ls = [].
Proof. induction 1 as [|l ls -> _ IH]; [done | exact IH]. Qed.

Section MoreProperties.

Variable time_ParseDuration : string -> Z * option error.

Local Abbreviation specFields :=
  (matakubeResourceNodeDeploymentSpecFields time_ParseDuration).

Lemma label_and_tag_validator (path : list string) (f : schema.SchemaValidateFunc) :
  path ∈ labelAndTagFields -> validatesWith specFields path f ->
  f = validateLabelsOrTags.
Proof.
  unfold validatesWith. intros Hpath Hf.
  list_cases Hpath;
    match type of Hf with
    | ?lhs = _ =>
        assert (lhs = Some (Some validateLabelsOrTags)) as Hc by reflexivity
    end; congruence.
Qed.

(** X5. The validator of the labels map and of each tags map returns, for
    a map, no warning and one error for each key of the map that has
    a forbidden prefix, naming that key, and no other error; the
    values of the map and the attribute name play no part. *)
Theorem label_and_tag_validators_report_forbidden_keys
    (path : list string) (f : schema.SchemaValidateFunc)
    (m : gmap string Value) (k : string) :
  path ∈ labelAndTagFields -> validatesWith specFields path f ->
  exists errs,
    f (VMap m) k = Returns ([], errs) /\
    NoDup errs /\
    forall e, e ∈ errs <->
      exists key, is_Some (m !! key) /\ hasForbiddenPrefix key /\
                  e = Errorf ("forbidden tag or label prefix " +:+ key).
Proof.
  intros Hpath Hf. rewrite (label_and_tag_validator path f Hpath Hf).
  apply validateLabelsOrTags_map.
Qed.

(** X6. The same validators panic on a value that is not a map, and only
    on such a value. *)
Theorem label_and_tag_validators_panic_iff_not_map
    (path : list string) (f : schema.SchemaValidateFunc) (v : Value) (k : string) :
  path ∈ labelAndTagFields -> validatesWith specFields path f ->
  (exists msg, f v k = Panics msg) <-> forall m, v <> VMap m.
Proof.
  intros Hpath Hf. rewrite (label_and_tag_validator path f Hpath Hf).
  unfold validateLabelsOrTags.
  destruct v as [| | | | |m]; simpl.
  1-5: split; [intros _ m' [=] | intros _; eexists; reflexivity].
  split; [intros [msg [=]] | intros H; by destruct (H m)].
Qed.

(** *** The integer validators and the replicas diff *)

Lemma at_least_one_validator (path : list string) (f : schema.SchemaValidateFunc) :
  path ∈ atLeastOneFields -> validatesWith specFields path f ->
  f = validation.IntAtLeast 1.
Proof.
  unfold validatesWith. intros Hpath Hf.
  list_cases Hpath;
    match type of Hf with
    | ?lhs = _ =>
        assert (lhs = Some (Some (validation.IntAtLeast 1))) as Hc by reflexivity
    end; congruence.
Qed.

(** X7. [min_replicas], [max_replicas] and the OpenStack [disk_size]
    accept exactly the integers from 1 up; any other value, an
    integer below 1 or a value that is not an integer, gets exactly
    one error, without a panic and without a warning. *)
Theorem at_least_one_fields_accept_iff_int_from_1
    (path : list string) (f : schema.SchemaValidateFunc) (v : Value) (k : string) :
  path ∈ atLeastOneFields -> validatesWith specFields path f ->
  (f v k = Returns ([], []) <-> exists n, v = VInt n /\ 1 <= n) /\
  ((exists e, f v k = Returns ([], [e])) <-> ~ exists n, v = VInt n /\ 1 <= n).
Proof.
  intros Hpath Hf. rewrite (at_least_one_validator path f Hpath Hf).
  unfold validation.IntAtLeast.
  destruct v as [| |n| | |];
    try (split; split;
         [ discriminate | intros (n & [=] & _)
         | intros _ (n & [=] & _) | intros _; eexists; reflexivity ]).
  destruct (Z.ltb_spec n 1); split; split.
  - discriminate.
  - intros (n' & [= <-] & ?). lia.
  - intros _ (n' & [= <-] & ?). lia.
  - intros _. eexists. reflexivity.
  - intros _. eauto.
  - reflexivity.
  - intros [e [=]].
  - intros Hn. destruct Hn. eauto.
Qed.

Lemma replicas_suppressor (fsup : schema.SchemaDiffSuppressFunc) :
  suppressesWith specFields ["replicas"] fsup ->
  forall k old new d,
    fsup k old new d =
    let '(minv, ok1) := schema.GetOkConfigured d "spec.0.min_replicas" in
    let '(maxv, ok2) := schema.GetOkConfigured d "spec.0.max_replicas" in
    Returns ok1 &&& (m ← assertInt minv; mret (m >? 0)) &&&
    Returns ok2 &&& (m ← assertInt maxv; mret (m >? 0)).
Proof.
  unfold suppressesWith. intros Hf.
  match type of Hf with
  | ?lhs = _ =>
      assert (lhs = Some (Some (fun _ _ _ d =>
        let '(minv, ok1) := schema.GetOkConfigured d "spec.0.min_replicas" in
        let '(maxv, ok2) := schema.GetOkConfigured d "spec.0.max_replicas" in
        Returns ok1 &&& (m ← assertInt minv; mret (m >? 0)) &&&
        Returns ok2 &&& (m ← assertInt maxv; mret (m >? 0))))) as Hc by reflexivity
  end.
  rewrite Hc in Hf. injection Hf as <-. reflexivity.
Qed.

(** X8. When the configuration sets both bounds to values their own
    validators accept, the diff on [replicas] is suppressed, whatever
    the attribute and the old and new values are. *)
Theorem replicas_diff_suppressed_for_valid_bounds
    (fmin fmax : schema.SchemaValidateFunc) (fsup : schema.SchemaDiffSuppressFunc)
    (d : schema.ResourceData) (vmin vmax : Value) (k old new : string) :
  validatesWith specFields ["min_replicas"] fmin ->
  validatesWith specFields ["max_replicas"] fmax ->
  suppressesWith specFields ["replicas"] fsup ->
  schema.GetOkConfigured d "spec.0.min_replicas" = (vmin, true) ->
  schema.GetOkConfigured d "spec.0.max_replicas" = (vmax, true) ->
  fmin vmin "spec.0.min_replicas" = Returns ([], []) ->
  fmax vmax "spec.0.max_replicas" = Returns ([], []) ->
  fsup k old new d = Returns true.
Proof.
  intros Hfmin Hfmax Hfsup Hmin Hmax Hvmin Hvmax.
  rewrite (at_least_one_validator ["min_replicas"] fmin) in Hvmin; [|list_member|done].
  rewrite (at_least_one_validator ["max_replicas"] fmax) in Hvmax; [|list_member|done].
  rewrite (replicas_suppressor fsup Hfsup).
  rewrite Hmin, Hmax. unfold validation.IntAtLeast in *.
  destruct vmin as [| |m| | |]; try discriminate.
  destruct vmax as [| |n| | |]; try discriminate.
  destruct (Z.ltb_spec m 1); [discriminate|].
  destruct (Z.ltb_spec n 1); [discriminate|]. cbn.
  destruct (Z.gtb_spec m 0); [|lia]. cbn.
  destruct (Z.gtb_spec n 0); [|lia]. reflexivity.
Qed.

(** X9. The diff-suppression function of [replicas] panics exactly when
    it reaches a type assertion on a value that is not an [int]: when
    [min_replicas] is configured with such a value, or when
    [min_replicas] is configured above zero and [max_replicas] is
    configured with such a value. An unconfigured bound is never
    looked at. *)
Theorem replicas_diff_panics_iff_configured_non_int
    (fsup : schema.SchemaDiffSuppressFunc) (d : schema.ResourceData)
    (vmin vmax : Value) (ok1 ok2 : bool) (k old new : string) :
  suppressesWith specFields ["replicas"] fsup ->
  schema.GetOkConfigured d "spec.0.min_replicas" = (vmin, ok1) ->
  schema.GetOkConfigured d "spec.0.max_replicas" = (vmax, ok2) ->
  (exists msg, fsup k old new d = Panics msg) <->
  ok1 = true /\
  (~ isInt vmin \/
   exists m, vmin = VInt m /\ 0 < m /\ ok2 = true /\ ~ isInt vmax).
Proof.
  intros Hfsup Hmin Hmax. rewrite (replicas_suppressor fsup Hfsup).
  rewrite Hmin, Hmax. unfold isInt.
  destruct ok1; cbn; [|split; [intros [msg [=]] | intros [[=] _]]].
  assert (Hnot : forall v, (forall n, v <> VInt n) -> ~ exists n, v = VInt n)
    by (intros v Hv [n ->]; by apply (Hv n)).
  destruct vmin as [| |m| | |]; cbn;
    try (split; [intros _; split; [done|]; left; by apply Hnot | eauto]).
  destruct (Z.gtb_spec m 0); cbn.
  - destruct ok2; cbn.
    + destruct vmax as [| |n| | |]; cbn;
        try (split; [intros _; split; [done|]; right; exists m;
                     repeat split; try done; by apply Hnot | eauto]).
      split; [intros [msg [=]]|].
      intros [_ [Hn|(m' & _ & _ & _ & Hn)]]; destruct Hn; eauto.
    + split; [intros [msg [=]]|].
      intros [_ [Hn|(m' & _ & _ & [=] & _)]]. destruct Hn; eauto.
  - split; [intros [msg [=]]|].
    intros [_ [Hn|(m' & [= <-] & ? & _)]]; [destruct Hn; eauto | lia].
Qed.

(** *** Invariants of the schema tree *)

(** X10. Every field of the spec block, at any depth, is required or
    optional and never both; a required field has no default; a
    computed field is optional and has no default. *)
Theorem every_field_required_xor_optional (path : list string) (s : schema.Schema) :
  schema.fieldAt path specFields = Some s ->
  schema.Required s = negb (schema.Optional s) /\
  (schema.Required s = true -> schema.Default s = None) /\
  (schema.Computed s = true ->
   schema.Optional s = true /\ schema.Default s = None).
Proof.
  intros Hs. apply presenceOk_true.
  refine (checkTree_sound (fun _ => presenceOk) 6 [] specFields _ path s Hs).
  vm_compute. reflexivity.
Qed.

(** X11. In every field of the spec block, at any depth: a default has
    the type of its field; a bool, int or string field has no [Elem]
    and no item bound; a map holds strings; a list holds a nested
    block or strings; and the item bounds are 0 or 1, the lower one
    never above the upper one. *)
Theorem every_field_well_shaped (path : list string) (s : schema.Schema) :
  schema.fieldAt path specFields = Some s ->
  (forall v, schema.Default s = Some v -> typeOfValue v = schema.Type_ s) /\
  match schema.Type_ s with
  | schema.TypeBool | schema.TypeInt | schema.TypeString =>
      schema.Elem s = schema.ElemNil /\ schema.MaxItems s = 0
  | schema.TypeMap =>
      exists e, schema.Elem s = schema.ElemSchema e /\
                schema.Type_ e = schema.TypeString
  | schema.TypeList =>
      (exists block, schema.Elem s = schema.ElemResource block) \/
      (exists e, schema.Elem s = schema.ElemSchema e /\
                 schema.Type_ e = schema.TypeString)
  | _ => False
  end /\
  0 <= schema.MinItems s <= schema.MaxItems s /\ schema.MaxItems s <= 1.
Proof.
  intros Hs. apply shapeOk_true.
  refine (checkTree_sound (fun _ => shapeOk) 6 [] specFields _ path s Hs).
  vm_compute. reflexivity.
Qed.

(** X12. The defaults of the tree are those of the table
    [declaredDefaults], and no other field has a default. *)
Theorem every_default_is_declared (path : list string) (s : schema.Schema) :
  schema.fieldAt path specFields = Some s ->
  schema.Default s = declaredDefaults !! path.
Proof.
  intros Hs. apply defaultIs_true.
  refine (checkTree_sound (fun p => defaultIs (declaredDefaults !! p)) 6 []
            specFields _ path s Hs).
  vm_compute. reflexivity.
Qed.

(** X13. Which fields carry a function or force a new resource: a
    diff-suppression function is on [replicas], the labels and the
    three tags maps and nowhere else; a [ValidateFunc] on the three
    integer fields, the labels, the tags and the taint effect; a
    [ValidateDiagFunc] on the two OpenStack durations; [ForceNew] on
    the two Azure disk sizes. *)
Theorem functions_and_force_new_only_where_listed
    (path : list string) (s : schema.Schema) :
  schema.fieldAt path specFields = Some s ->
  (is_Some (schema.DiffSuppressFunc s) <-> path ∈ diffSuppressingFields) /\
  (is_Some (schema.ValidateFunc s) <-> path ∈ validatedFields) /\
  (is_Some (schema.ValidateDiagFunc s) <-> path ∈ durationFields) /\
  (schema.ForceNew s = true <-> path ∈ forceNewFields).
Proof.
  intros Hs. apply hooksAre_true.
  refine (checkTree_sound hooksAre 6 [] specFields _ path s Hs).
  vm_compute. reflexivity.
Qed.

(** X14. Only [replicas], [min_replicas], [max_replicas], [ubuntu] and
    [flatcar] declare constraints between attributes, and every key
    such a constraint names is the address of an optional field of
    the same block. *)
Theorem constraints_name_optional_siblings
    (path : list string) (s : schema.Schema) :
  schema.fieldAt path specFields = Some s ->
  (constraintKeys s <> [] <-> path ∈ constrainedFields) /\
  forall key, key ∈ constraintKeys s ->
    exists name t,
      schema.fieldAt (removelast path ++ [name]) specFields = Some t /\
      key = address (removelast path ++ [name]) /\
      schema.Optional t = true /\ schema.Required t = false.
Proof.
  intros Hs. apply constraintsOk_true.
  refine (checkTree_sound (constraintsOk specFields) 6 [] specFields _ path s Hs).
  vm_compute. reflexivity.
Qed.

(** X15. Every nested block of the tree but the taints holds at most one
    element, so element 0 is the only one an address can go through. *)
Theorem every_block_but_taints_single
    (path : list string) (s : schema.Schema) (block : gmap string schema.Schema) :
  schema.fieldAt path specFields = Some s ->
  schema.blockFields s = Some block ->
  path <> ["template"; "taints"] ->
  schema.Type_ s = schema.TypeList /\ schema.MaxItems s = 1.
Proof.
  intros Hs Hb Hpath.
  assert (Hsingle : singleBlock path s = true).
  { refine (checkTree_sound singleBlock 6 [] specFields _ path s Hs).
    vm_compute. reflexivity. }
  assert (Hshape : shapeOk s = true).
  { refine (checkTree_sound (fun _ => shapeOk) 6 [] specFields _ path s Hs).
    vm_compute. reflexivity. }
  unfold singleBlock in Hsingle. rewrite Hb in Hsingle.
  apply orb_true_iff in Hsingle as [?%bool_decide_eq_true|?%Z.eqb_eq]; [done|].
  split; [|done]. apply shapeOk_true in Hshape as (_ & Hty & _).
  unfold schema.blockFields in Hb.
  destruct (schema.Elem s) as [|e|fields]; try done.
  destruct (schema.Type_ s); try done.
  - by destruct Hty.
  - by destruct Hty.
  - by destruct Hty.
  - by destruct Hty as (? & ? & ?).
Qed.

(** X16. The spec block itself and the operating-system block are the
    only blocks of the tree whose fields declare constraints; in any
    other block no combination of set and unset fields is rejected by
    the constraints between attributes. *)
Theorem other_blocks_reject_no_combination
    (parent : list string) (block : gmap string schema.Schema)
    (pfx : string) (configured : string -> bool) :
  schema.blockAt parent specFields = Some block ->
  parent ∉ [ []; ["template"; "operating_system"] ] ->
  host.validateConstraints pfx block configured = [].
Proof.
  intros Hb Hparent. unfold host.validateConstraints.
  assert (Hall : Forall (fun l : list error => l = [])
            ((fun '(name, s) =>
                let k := pfx +:+ name in
                host.exactlyOneOf k s configured ++ host.requiredWith k s configured ++
                host.conflictsWith k s configured) <$> map_to_list block)).
  { apply Forall_fmap, Forall_forall. intros [name t] Hin%elem_of_map_to_list.
    simpl. apply no_constraint_no_error.
    pose proof (fieldAt_snoc parent name specFields block t Hb Hin) as Ht.
    assert (Hok : constraintsOk specFields (parent ++ [name]) t = true).
    { refine (checkTree_sound (constraintsOk specFields) 6 [] specFields _ _ t Ht).
      vm_compute. reflexivity. }
    apply constraintsOk_true in Hok as [Hwhich _].
    destruct (decide (constraintKeys t = [])) as [|Hne]; [done|].
    apply Hwhich in Hne. destruct Hparent. by apply (constrained_parent _ name). }
  by apply mjoin_all_nil.

Qed.

End MoreProperties.

(** *** Closed instances of the further properties *)

Lemma label_validator_reports_forbidden_keys_instance :
  ["template"; "labels"] ∈ labelAndTagFields /\
  validatesWith (matakubeResourceNodeDeploymentSpecFields rejectingParser)
    ["template"; "labels"] validateLabelsOrTags /\
  exists errs,
    validateLabelsOrTags
      (VMap {[ "kubernetes.io/role" := VString "worker"; "team" := VString "a" ]})
      "labels" = Returns ([], errs) /\
    NoDup errs /\
    forall e, e ∈ errs <->
      exists key,
        is_Some (({[ "kubernetes.io/role" := VString "worker"; "team" := VString "a" ]}
                    : gmap string Value) !! key) /\
        hasForbiddenPrefix key /\
        e = Errorf ("forbidden tag or label prefix " +:+ key).
Proof.
  assert (Hin : ["template"; "labels"] ∈ labelAndTagFields) by list_member.
  split; [exact Hin|]. split; [reflexivity|].
  exact (label_and_tag_validators_report_forbidden_keys rejectingParser
           ["template"; "labels"] validateLabelsOrTags _ "labels" Hin eq_refl).
Defined.

Lemma aws_tags_validator_panics_on_string :
  ["template"; "cloud"; "aws"; "tags"] ∈ labelAndTagFields /\
  validatesWith (matakubeResourceNodeDeploymentSpecFields rejectingParser)
    ["template"; "cloud"; "aws"; "tags"] validateLabelsOrTags /\
  ((exists msg, validateLabelsOrTags (VString "a=b") "tags" = Panics msg) <->
   forall m, VString "a=b" <> VMap m).
Proof.
  assert (Hin : ["template"; "cloud"; "aws"; "tags"] ∈ labelAndTagFields) by list_member.
  split; [exact Hin|]. split; [reflexivity|].
  exact (label_and_tag_validators_panic_iff_not_map rejectingParser
           ["template"; "cloud"; "aws"; "tags"] validateLabelsOrTags
           (VString "a=b") "tags" Hin eq_refl).
Defined.

Lemma min_replicas_rejects_zero :
  ["min_replicas"] ∈ atLeastOneFields /\
  validatesWith (matakubeResourceNodeDeploymentSpecFields rejectingParser)
    ["min_replicas"] (validation.IntAtLeast 1) /\
  (validation.IntAtLeast 1 (VInt 0) "min_replicas" = Returns ([], []) <->
   exists n, VInt 0 = VInt n /\ 1 <= n) /\
  ((exists e, validation.IntAtLeast 1 (VInt 0) "min_replicas" = Returns ([], [e])) <->
   ~ exists n, VInt 0 = VInt n /\ 1 <= n).
Proof.
  assert (Hin : ["min_replicas"] ∈ atLeastOneFields) by list_member.
  split; [exact Hin|]. split; [reflexivity|].
  exact (at_least_one_fields_accept_iff_int_from_1 rejectingParser
           ["min_replicas"] (validation.IntAtLeast 1) (VInt 0) "min_replicas"
           Hin eq_refl).
Defined.

Lemma replicas_diff_suppressed_for_bounds_2_4 :
  exists fsup,
    validatesWith (matakubeResourceNodeDeploymentSpecFields rejectingParser)
      ["min_replicas"] (validation.IntAtLeast 1) /\
    validatesWith (matakubeResourceNodeDeploymentSpecFields rejectingParser)
      ["max_replicas"] (validation.IntAtLeast 1) /\
    suppressesWith (matakubeResourceNodeDeploymentSpecFields rejectingParser)
      ["replicas"] fsup /\
    schema.GetOkConfigured (autoscalingData 2 4) "spec.0.min_replicas" = (VInt 2, true) /\
    schema.GetOkConfigured (autoscalingData 2 4) "spec.0.max_replicas" = (VInt 4, true) /\
    validation.IntAtLeast 1 (VInt 2) "spec.0.min_replicas" = Returns ([], []) /\
    validation.IntAtLeast 1 (VInt 4) "spec.0.max_replicas" = Returns ([], []) /\
    fsup "spec.0.replicas" "3" "7" (autoscalingData 2 4) = Returns true.
Proof.
  eexists. do 7 (split; [reflexivity|]).
  exact (replicas_diff_suppressed_for_valid_bounds rejectingParser
           (validation.IntAtLeast 1) (validation.IntAtLeast 1) _
           (autoscalingData 2 4) (VInt 2) (VInt 4) "spec.0.replicas" "3" "7"
           eq_refl eq_refl eq_refl eq_refl eq_refl eq_refl eq_refl).
Defined.

Lemma replicas_diff_panics_on_string_bounds :
  exists fsup,
    suppressesWith (matakubeResourceNodeDeploymentSpecFields rejectingParser)
      ["replicas"] fsup /\
    schema.GetOkConfigured (boundsSetTo (VString "two")) "spec.0.min_replicas"
      = (VString "two", true) /\
    schema.GetOkConfigured (boundsSetTo (VString "two")) "spec.0.max_replicas"
      = (VString "two", true) /\
    ((exists msg,
        fsup "spec.0.replicas" "3" "7" (boundsSetTo (VString "two")) = Panics msg) <->
     true = true /\
     (~ isInt (VString "two") \/
      exists m, VString "two" = VInt m /\ 0 < m /\ true = true /\
                ~ isInt (VString "two"))).
Proof.
  eexists. do 3 (split; [reflexivity|]).
  exact (replicas_diff_panics_iff_configured_non_int rejectingParser _
           (boundsSetTo (VString "two")) (VString "two") (VString "two") true true
           "spec.0.replicas" "3" "7" eq_refl eq_refl eq_refl).
Defined.

Lemma replicas_field_required_xor_optional :
  exists s,
    schema.fieldAt ["replicas"]
      (matakubeResourceNodeDeploymentSpecFields rejectingParser) = Some s /\
    schema.Required s = negb (schema.Optional s) /\
    (schema.Required s = true -> schema.Default s = None) /\
    (schema.Computed s = true ->
     schema.Optional s = true /\ schema.Default s = None).
Proof.
  eexists. split; [reflexivity|].
  exact (every_field_required_xor_optional rejectingParser ["replicas"] _ eq_refl).
Defined.

Lemma azure_tags_field_well_shaped :
  exists s,
    schema.fieldAt ["template"; "cloud"; "azure"; "tags"]
      (matakubeResourceNodeDeploymentSpecFields rejectingParser) = Some s /\
    (forall v, schema.Default s = Some v -> typeOfValue v = schema.Type_ s) /\
    match schema.Type_ s with
    | schema.TypeBool | schema.TypeInt | schema.TypeString =>
        schema.Elem s = schema.ElemNil /\ schema.MaxItems s = 0
    | schema.TypeMap =>
        exists e, schema.Elem s = schema.ElemSchema e /\
                  schema.Type_ e = schema.TypeString
    | schema.TypeList =>
        (exists block, schema.Elem s = schema.ElemResource block) \/
        (exists e, schema.Elem s = schema.ElemSchema e /\
                   schema.Type_ e = schema.TypeString)
    | _ => False
    end /\
    0 <= schema.MinItems s <= schema.MaxItems s /\ schema.MaxItems s <= 1.
Proof.
  eexists. split; [reflexivity|].
  exact (every_field_well_shaped rejectingParser
           ["template"; "cloud"; "azure"; "tags"] _ eq_refl).
Defined.

Lemma use_floating_ip_default_is_declared :
  exists s,
    schema.fieldAt ["template"; "cloud"; "openstack"; "use_floating_ip"]
      (matakubeResourceNodeDeploymentSpecFields rejectingParser) = Some s /\
    schema.Default s =
    declaredDefaults !! ["template"; "cloud"; "openstack"; "use_floating_ip"].
Proof.
  eexists. split; [reflexivity|].
  exact (every_default_is_declared rejectingParser
           ["template"; "cloud"; "openstack"; "use_floating_ip"] _ eq_refl).
Defined.

Lemma taint_key_has_no_function :
  exists s,
    schema.fieldAt ["template"; "taints"; "key"]
      (matakubeResourceNodeDeploymentSpecFields rejectingParser) = Some s /\
    (is_Some (schema.DiffSuppressFunc s) <->
     ["template"; "taints"; "key"] ∈ diffSuppressingFields) /\
    (is_Some (schema.ValidateFunc s) <->
     ["template"; "taints"; "key"] ∈ validatedFields) /\
    (is_Some (schema.ValidateDiagFunc s) <->
     ["template"; "taints"; "key"] ∈ durationFields) /\
    (schema.ForceNew s = true <-> ["template"; "taints"; "key"] ∈ forceNewFields).
Proof.
  eexists. split; [reflexivity|].
  exact (functions_and_force_new_only_where_listed rejectingParser
           ["template"; "taints"; "key"] _ eq_refl).
Defined.

Lemma flatcar_constraints_name_optional_siblings :
  exists s,
    schema.fieldAt ["template"; "operating_system"; "flatcar"]
      (matakubeResourceNodeDeploymentSpecFields rejectingParser) = Some s /\
    (constraintKeys s <> [] <->
     ["template"; "operating_system"; "flatcar"] ∈ constrainedFields) /\
    forall key, key ∈ constraintKeys s ->
      exists name t,
        schema.fieldAt
          (removelast ["template"; "operating_system"; "flatcar"] ++ [name])
          (matakubeResourceNodeDeploymentSpecFields rejectingParser) = Some t /\
        key = address
                (removelast ["template"; "operating_system"; "flatcar"] ++ [name]) /\
        schema.Optional t = true /\ schema.Required t = false.
Proof.
  eexists. split; [reflexivity|].
  exact (constraints_name_optional_siblings rejectingParser
           ["template"; "operating_system"; "flatcar"] _ eq_refl).
Defined.

Lemma cloud_block_is_single :
  exists s block,
    schema.fieldAt ["template"; "cloud"]
      (matakubeResourceNodeDeploymentSpecFields rejectingParser) = Some s /\
    schema.blockFields s = Some block /\
    ["template"; "cloud"] <> ["template"; "taints"] /\
    schema.Type_ s = schema.TypeList /\ schema.MaxItems s = 1.
Proof.
  assert (Hne : ["template"; "cloud"] <> ["template"; "taints"]) by discriminate.
  eexists. eexists. split; [reflexivity|]. split; [reflexivity|]. split; [exact Hne|].
  exact (every_block_but_taints_single rejectingParser
           ["template"; "cloud"] _ _ eq_refl eq_refl Hne).
Defined.

Lemma aws_block_rejects_no_combination :
  exists block,
    schema.blockAt ["template"; "cloud"; "aws"]
      (matakubeResourceNodeDeploymentSpecFields rejectingParser) = Some block /\
    (["template"; "cloud"; "aws"] ∉ [ []; ["template"; "operating_system"] ]) /\
    host.validateConstraints "spec.0.template.0.cloud.0.aws.0." block (fun _ => true) = [].
Proof.
  assert (Hnot : ["template"; "cloud"; "aws"] ∉ [ []; ["template"; "operating_system"] ]).
  { intros Hin. repeat (apply elem_of_cons in Hin as [Heq|Hin]; [discriminate|]).
    by apply elem_of_nil in Hin. }
  eexists. split; [reflexivity|]. split; [exact Hnot|].
  exact (other_blocks_reject_no_combination rejectingParser
           ["template"; "cloud"; "aws"] _ "spec.0.template.0.cloud.0.aws.0."
           (fun _ => true) eq_refl Hnot).
Defined.
